(** * Transmit: the broadcast orchestrator of [src/transmit.ts]

    A shallow embedding of the [Transmit] class.  Every method is a program
    in a small state-and-log monad: the state is the instance (its private
    fields), the log records, in order, every call the method makes on one
    of its collaborators (streams, bus, emitter, response, storage,
    authorization callbacks).  The log records the calls, as the method
    issues them; what the bus or the emitter do later with a call they
    received ([void] drops their promise) is theirs.  An [async] method
    runs here in one piece, the awaited callback being a function of the
    context and the parameters. *)

From stdpp Require Import gmap strings list fin_maps.
From Stdlib Require Import ZArith Ascii.

Open Scope string_scope.
Set Warnings "-register-all".

(** ** Values carried by messages *)

(** Modelled from the spec: the [Broadcastable] type is declared in
    [types/main.ts], which is not among the sources; a payload is a JSON
    value.  Numbers are the integer-valued ones. *)
Inductive Broadcastable : Type :=
| BNull
| BBoolean (b : bool)
| BNumber (n : Z)
| BString (s : string)
| BArray (items : list Broadcastable)
| BObject (fields : list (string * Broadcastable)).

(** The object literal [{}]. *)
Definition empty_object : Broadcastable := BObject [].

(** JavaScript's [ToBoolean] on a payload: [null], [false], [0] and the
    empty string are falsy, arrays and objects are truthy. *)
Definition truthy (v : Broadcastable) : bool :=
  match v with
  | BNull => false
  | BBoolean b => b
  | BNumber n => negb (n =? 0)%Z
  | BString s => negb (String.eqb s EmptyString)
  | BArray _ => true
  | BObject _ => true
  end.

(** An optional argument: [None] is [undefined], which is falsy. *)
Definition truthy_opt (v : option Broadcastable) : bool :=
  match v with
  | None => false
  | Some p => truthy p
  end.

(** ** Connections and streams *)

(** The HTTP context of one connection: [conn] names the underlying
    request/response pair, [input] is what [request.input(key)] reads. *)
Record HttpContext : Type := {
  conn : nat;
  input : gmap string string;
}.

(** [new Stream(uid, request)]. *)
Record Stream : Type := {
  getUid : string;
  stream_request : nat;
}.

Global Instance Stream_eq_dec : EqDecision Stream.
Proof. solve_decision. Defined.

Global Instance Stream_countable : Countable Stream.
Proof.
  refine (inj_countable' (fun s => (getUid s, stream_request s))
                         (fun p => {| getUid := p.1; stream_request := p.2 |}) _).
  by intros [].
Defined.

(** The argument of [writeMessage]: [{ data: { channel, payload } }]. *)
Record Message : Type := {
  data_channel : string;
  data_payload : Broadcastable;
}.

(** ** The stream registry *)

Module StreamChannelRepository.

(** Modelled from the spec: [stream_channel_repository.ts] is not among
    the sources.  The registry keeps two indices, client uid to (stream,
    set of channels) and channel to set of streams. *)
Record t : Type := {
  clients : gmap string (Stream * gset string);
  channels : gmap string (gset Stream);
}.

Definition empty : t := {| clients := ∅; channels := ∅ |}.

(** Modelled from the spec: [push] registers a new stream keyed by uid,
    with no channel membership yet. *)
Definition push (s : Stream) (r : t) : t :=
  {| clients := <[getUid s := (s, ∅)]> (clients r);
     channels := channels r |}.

(** Modelled from the spec: [remove] deletes the stream from the uid
    index (the entry of its uid, when that entry holds this stream) and
    from every channel index; on an absent stream nothing changes. *)
Definition remove (s : Stream) (r : t) : t :=
  {| clients :=
       match clients r !! getUid s with
       | Some (s', _) =>
           if decide (s' = s) then delete (getUid s) (clients r)
           else clients r
       | None => clients r
       end;
     channels := (fun subs => subs ∖ {[s]}) <$> channels r |}.

(** Modelled from the spec: [addChannelToStream] returns false if no
    stream is registered for [uid]; otherwise it adds the channel to the
    client's set and the stream to the channel's set and returns true. *)
Definition addChannelToStream (uid channel : string) (r : t) : bool * t :=
  match clients r !! uid with
  | None => (false, r)
  | Some (s, chs) =>
      (true,
       {| clients := <[uid := (s, chs ∪ {[channel]})]> (clients r);
          channels :=
            <[channel := default ∅ (channels r !! channel) ∪ {[s]}]>
              (channels r) |})
  end.

(** Modelled from the spec: [removeChannelFromStream] is the inverse; it
    returns false if the client or the membership does not exist. *)
Definition removeChannelFromStream (uid channel : string) (r : t)
  : bool * t :=
  match clients r !! uid with
  | None => (false, r)
  | Some (s, chs) =>
      if decide (channel ∈ chs) then
        (true,
         {| clients := <[uid := (s, chs ∖ {[channel]})]> (clients r);
            channels := alter (fun subs => subs ∖ {[s]}) channel
                              (channels r) |})
      else (false, r)
  end.

(** Modelled from the spec: all streams subscribed to a channel, empty
    if none. *)
Definition findByChannel (channel : string) (r : t) : list Stream :=
  elements (default ∅ (channels r !! channel)).

(** Modelled from the spec: the channels of a client, or absent. *)
Definition getChannelByClient (uid : string) (r : t)
  : option (gset string) :=
  snd <$> clients r !! uid.

(** Modelled from the spec: every registered stream with its channels. *)
Definition getAllSubscribers (r : t) : list (Stream * gset string) :=
  snd <$> map_to_list (clients r).

End StreamChannelRepository.

(** ** The store of secured channel patterns *)

Module SecureChannelStore.

(** The result of a match: the pattern as registered and the bound
    parameters. *)
Record definitions : Type := {
  url : string;
  params : list (string * string);
}.

(** Modelled from the spec: [secure_channel_store.ts] is not among the
    sources.  The store is the list of registered patterns, in
    registration order. *)
Record t : Type := { patterns : list string }.

Definition empty : t := {| patterns := [] |}.

(** Modelled from the spec: [add] registers a pattern. *)
Definition add (pattern : string) (s : t) : t :=
  {| patterns := patterns s ++ [pattern] |}.

(** The segments of a path-style name, cut at every ["/"]. *)
Fixpoint segments_from (acc : string) (s : string) : list string :=
  match s with
  | EmptyString => [String.rev acc]
  | String c rest =>
      if Ascii.eqb c "/"%char
      then String.rev acc :: segments_from EmptyString rest
      else segments_from (String c acc) rest
  end.

Definition segments (s : string) : list string :=
  segments_from EmptyString s.

(** Modelled from the spec: a pattern segment [":name"] binds [name] to
    the concrete segment, any other segment must be equal to it. *)
Fixpoint match_segments (pattern concrete : list string)
  : option (list (string * string)) :=
  match pattern, concrete with
  | [], [] => Some []
  | String ":" name :: ps, c :: cs =>
      bound ← match_segments ps cs; Some ((name, c) :: bound)
  | p :: ps, c :: cs =>
      if String.eqb p c then match_segments ps cs else None
  | _, _ => None
  end.

Definition match_pattern (pattern channel : string)
  : option definitions :=
  bound ← match_segments (segments pattern) (segments channel);
  Some {| url := pattern; params := bound |}.

Fixpoint first_match (ps : list string) (channel : string)
  : option definitions :=
  match ps with
  | [] => None
  | p :: rest =>
      match match_pattern p channel with
      | Some d => Some d
      | None => first_match rest channel
      end
  end.

(** Modelled from the spec: [match] tests the concrete name against all
    registered patterns in registration order and returns the first
    match with its parameters bound, or none. *)
Definition match_ (channel : string) (s : t) : option definitions :=
  first_match (patterns s) channel.

End SecureChannelStore.

(** ** Messages, lifecycle events and calls on collaborators *)

(** [TransmitMessage]: what travels on the bus, tagged by
    [TransportMessageType]; the payload of the last two is [{ uid }]. *)
Inductive TransmitMessage : Type :=
| Broadcast (channel : string) (payload : Broadcastable)
| Subscribe (channel : string) (uid : string)
| Unsubscribe (channel : string) (uid : string).

(** [TransmitLifecycleHooks]: the five events of the emitter. *)
Inductive LifecycleEvent : Type :=
| hook_connect (uid : string) (ctx : HttpContext)
| hook_disconnect (uid : string) (ctx : HttpContext)
| hook_broadcast (channel : string) (payload : Broadcastable)
| hook_subscribe (uid channel : string) (ctx : HttpContext)
| hook_unsubscribe (uid channel : string) (ctx : HttpContext).

(** The methods of [this.#storage]. *)
Inductive StorageCall : Type :=
| call_push (stream : Stream)
| call_remove (stream : Stream)
| call_addChannelToStream (uid channel : string)
| call_removeChannelFromStream (uid channel : string)
| call_findByChannel (channel : string)
| call_getChannelByClient (uid : string)
| call_getAllSubscribers.

(** One entry of the log. *)
Inductive Effect : Type :=
| WriteMessage (stream : Stream) (message : Message)
| BusPublish (channel : string) (message : TransmitMessage)
| Emit (event : LifecycleEvent)
| ResponseForbidden (ctx : HttpContext)
| ResponseInternalServerError (ctx : HttpContext)
| CallbackCall (url : string) (ctx : HttpContext)
               (params : list (string * string))
| StreamPipe (stream : Stream) (ctx : HttpContext)
| ResponseOnClose (ctx : HttpContext) (stream : Stream)
| ResponseStream (ctx : HttpContext) (stream : Stream)
| Storage (call : StorageCall).

(** What awaiting an authorization callback gives: the boolean it
    resolves to, or an error (thrown, or a rejected promise). *)
Inductive CallbackResult : Type :=
| Returns (result : bool)
| Throws.

Definition Callback : Type :=
  HttpContext -> list (string * string) -> CallbackResult.

(** ** The instance *)

(** [pingInterval]: milliseconds, or a duration string. *)
Inductive Duration : Type :=
| Millis (n : Z)
| Pretty (s : string).

(** Modelled from the spec: [TransmitConfig] is declared in
    [types/main.ts], which is not among the sources.  The configuration
    gives an optional ping interval and the name of the synchronization
    channel, read as [config.transport!.channel!]. *)
Record TransmitConfig : Type := {
  pingInterval : option Duration;
  transport_channel : string;
}.

(** The driver handed to the constructor. *)
Inductive Transport : Type := transport_driver (name : string).

(** [new Bus(transport, ...)], with the channels this instance listens
    on. *)
Record Bus : Type := {
  bus_transport : Transport;
  bus_subscribed : list string;
}.

(** The private fields of [Transmit]. *)
Record Transmit : Type := {
  storage : StreamChannelRepository.t;
  secureChannelStore : SecureChannelStore.t;
  secureChannelCallbacks : gmap string Callback;
  bus : option Bus;
  config : TransmitConfig;
  interval : option Z;
}.

Definition set_storage (r : StreamChannelRepository.t) (t : Transmit)
  : Transmit :=
  {| storage := r;
     secureChannelStore := secureChannelStore t;
     secureChannelCallbacks := secureChannelCallbacks t;
     bus := bus t;
     config := config t;
     interval := interval t |}.

(** ** The monad of methods *)

(** A method returns or throws. *)
Inductive Completion (A : Type) : Type :=
| Normal (value : A)
| Throw (message : string).

Arguments Normal {A} value.
Arguments Throw {A} message.

Definition M (A : Type) : Type :=
  Transmit -> Completion A * Transmit * list Effect.

Global Instance M_ret : MRet M :=
  fun A a t => (Normal a, t, []).

Global Instance M_bind : MBind M :=
  fun A B f m t =>
    match m t with
    | (Normal a, t', log) =>
        let '(r, t'', log') := f a t' in (r, t'', (log ++ log')%list)
    | (Throw e, t', log) => (Throw e, t', log)
    end.

Definition gets {A : Type} (f : Transmit -> A) : M A :=
  fun t => (Normal (f t), t, []).

Definition tell (e : Effect) : M unit :=
  fun t => (Normal tt, t, [e]).

Definition throw {A : Type} (message : string) : M A :=
  fun t => (Throw message, t, []).

(** [for (const x of xs) body]. *)
Fixpoint for_of {A : Type} (xs : list A) (body : A -> M unit) : M unit :=
  match xs with
  | [] => mret tt
  | x :: rest => body x ;; for_of rest body
  end.

(** The three components of a run. *)
Definition completion {A : Type} (m : M A) (t : Transmit) : Completion A :=
  (m t).1.1.

Definition final {A : Type} (m : M A) (t : Transmit) : Transmit :=
  (m t).1.2.

Definition effects {A : Type} (m : M A) (t : Transmit) : list Effect :=
  (m t).2.

(** ** Calls on [this.#storage], [this.#bus], [this.#emittery] *)

Definition storage_push (stream : Stream) : M unit :=
  fun t => (Normal tt,
            set_storage (StreamChannelRepository.push stream (storage t)) t,
            [Storage (call_push stream)]).

Definition storage_remove (stream : Stream) : M unit :=
  fun t => (Normal tt,
            set_storage (StreamChannelRepository.remove stream (storage t)) t,
            [Storage (call_remove stream)]).

Definition storage_addChannelToStream (uid channel : string) : M bool :=
  fun t =>
    let '(ok, r) :=
      StreamChannelRepository.addChannelToStream uid channel (storage t) in
    (Normal ok, set_storage r t,
     [Storage (call_addChannelToStream uid channel)]).

Definition storage_removeChannelFromStream (uid channel : string) : M bool :=
  fun t =>
    let '(ok, r) :=
      StreamChannelRepository.removeChannelFromStream uid channel (storage t)
    in
    (Normal ok, set_storage r t,
     [Storage (call_removeChannelFromStream uid channel)]).

Definition storage_findByChannel (channel : string) : M (list Stream) :=
  fun t => (Normal (StreamChannelRepository.findByChannel channel (storage t)),
            t, [Storage (call_findByChannel channel)]).

Definition storage_getChannelByClient (uid : string)
  : M (option (gset string)) :=
  fun t =>
    (Normal (StreamChannelRepository.getChannelByClient uid (storage t)),
     t, [Storage (call_getChannelByClient uid)]).

Definition storage_getAllSubscribers : M (list (Stream * gset string)) :=
  fun t => (Normal (StreamChannelRepository.getAllSubscribers (storage t)),
            t, [Storage call_getAllSubscribers]).

(** [void this.#bus?.publish(this.#config.transport!.channel!, message)]:
    nothing happens when there is no bus. *)
Definition bus_publish (message : TransmitMessage) : M unit :=
  fun t =>
    match bus t with
    | Some _ =>
        (Normal tt, t, [BusPublish (transport_channel (config t)) message])
    | None => (Normal tt, t, [])
    end.

(** [void this.#emittery.emit(name, data)]. *)
Definition emit (event : LifecycleEvent) : M unit := tell (Emit event).

(** [stream.writeMessage({ data: { channel, payload } })]. *)
Definition writeMessage (stream : Stream) (channel : string)
  (payload : Broadcastable) : M unit :=
  tell (WriteMessage stream
          {| data_channel := channel; data_payload := payload |}).

(** ** The methods of [Transmit] *)

(** The third argument of [#broadcastLocally]: one uid or an array. *)
Inductive SenderUid : Type :=
| OneUid (uid : string)
| ManyUids (uids : list string).

(** The test of the loop of [#broadcastLocally]:
    [Array.isArray(senderUid) ? senderUid.includes(uid) : senderUid === uid],
    where an omitted [senderUid] is [undefined] and equals no uid. *)
Definition is_sender (senderUid : option SenderUid) (uid : string) : bool :=
  match senderUid with
  | Some (ManyUids uids) => bool_decide (uid ∈ uids)
  | Some (OneUid sender) => String.eqb sender uid
  | None => false
  end.

Definition broadcastLocally (channel : string) (payload : Broadcastable)
  (senderUid : option SenderUid) : M unit :=
  subscribers ← storage_findByChannel channel;
  for_of subscribers (fun subscriber =>
    if is_sender senderUid (getUid subscriber)
    then mret tt
    else writeMessage subscriber channel payload).

Definition broadcastExcept (channel : string) (payload : Broadcastable)
  (senderUid : SenderUid) : M unit :=
  broadcastLocally channel payload (Some senderUid).

(** [if (!payload) { payload = {} }]. *)
Definition payload_or_empty (payload : option Broadcastable)
  : Broadcastable :=
  match payload with
  | Some p => if negb (truthy p) then empty_object else p
  | None => empty_object
  end.

Definition broadcast (channel : string) (payload : option Broadcastable)
  : M unit :=
  let payload := payload_or_empty payload in
  bus_publish (Broadcast channel payload) ;;
  broadcastLocally channel payload None ;;
  emit (hook_broadcast channel payload).

Definition ping_channel : string := "$$transmit/ping".

Definition ping : M unit :=
  storage_getAllSubscribers ;;
  subscribers ← storage_getAllSubscribers;
  for_of subscribers (fun '(stream, _) =>
    writeMessage stream ping_channel empty_object).

(** [await callback(ctx, definitions.params)]. *)
Definition call_callback (url : string) (callback : Callback)
  (ctx : HttpContext) (params : list (string * string)) : M CallbackResult :=
  tell (CallbackCall url ctx params) ;; mret (callback ctx params).

Definition subscribeToChannel (uid channel : string) (ctx : HttpContext)
  : M bool :=
  let proceed : M bool :=
    emit (hook_subscribe uid channel ctx) ;;
    bus_publish (Subscribe channel uid) ;;
    storage_addChannelToStream uid channel in
  definitions ← gets (fun t =>
    SecureChannelStore.match_ channel (secureChannelStore t));
  match definitions with
  | Some definitions =>
      callback ← gets (fun t =>
        secureChannelCallbacks t !! SecureChannelStore.url definitions);
      match callback with
      | None => mret false
      | Some callback =>
          result ← call_callback (SecureChannelStore.url definitions)
                     callback ctx (SecureChannelStore.params definitions);
          match result with
          | Returns true => proceed
          | Returns false => tell (ResponseForbidden ctx) ;; mret false
          | Throws => tell (ResponseInternalServerError ctx) ;; mret false
          end
      end
  | None => proceed
  end.

Definition unsubscribeFromChannel (uid channel : string) (ctx : HttpContext)
  : M bool :=
  emit (hook_unsubscribe uid channel ctx) ;;
  bus_publish (Unsubscribe channel uid) ;;
  storage_removeChannelFromStream uid channel.

(** [request.input(key)]: the value of the field, [undefined] when the
    request has none. *)
Definition request_input (ctx : HttpContext) (key : string)
  : option string :=
  input ctx !! key.

(** [!request.input('uid')]: [undefined] and the empty string are
    falsy. *)
Definition input_falsy (v : option string) : bool :=
  match v with
  | None => true
  | Some s => String.eqb s EmptyString
  end.

Definition dquote : string := String (ascii_of_nat 34) EmptyString.

Definition missing_uid : string :=
  "Missing required field " +:+ dquote +:+ "uid" +:+ dquote
    +:+ " in the request body".

(** The listener [$createStream] puts on the response's [close]. *)
Definition on_close (stream : Stream) (ctx : HttpContext) : M unit :=
  emit (hook_disconnect (getUid stream) ctx) ;;
  storage_remove stream.

Definition createStream (ctx : HttpContext) : M Stream :=
  if input_falsy (request_input ctx "uid") then throw missing_uid
  else
    let stream :=
      {| getUid := default EmptyString (request_input ctx "uid");
         stream_request := conn ctx |} in
    tell (StreamPipe stream ctx) ;;
    emit (hook_connect (getUid stream) ctx) ;;
    storage_push stream ;;
    tell (ResponseOnClose ctx stream) ;;
    tell (ResponseStream ctx stream) ;;
    mret stream.

Definition authorizeChannel (channel : string) (callback : Callback)
  : M unit :=
  fun t =>
    (Normal tt,
     {| storage := storage t;
        secureChannelStore :=
          SecureChannelStore.add channel (secureChannelStore t);
        secureChannelCallbacks :=
          <[channel := callback]> (secureChannelCallbacks t);
        bus := bus t;
        config := config t;
        interval := interval t |},
     []).

Definition getClients : M (list string) :=
  subscribers ← storage_getAllSubscribers;
  mret ((fun '(stream, _) => getUid stream) <$> subscribers).

Definition getSubscriptionsForClient (uid : string) : M (list string) :=
  channels ← storage_getChannelByClient uid;
  mret (match channels with
        | Some channels => elements channels
        | None => []
        end).

(** The handler the constructor subscribes on the bus. *)
Definition on_bus_message (message : TransmitMessage) : M unit :=
  match message with
  | Broadcast channel payload => broadcastLocally channel payload None
  | Subscribe channel uid =>
      storage_addChannelToStream uid channel ;; mret tt
  | Unsubscribe channel uid =>
      storage_removeChannelFromStream uid channel ;; mret tt
  end.

(** [if (this.#config.pingInterval)]: [0] and the empty string are
    falsy. *)
Definition duration_truthy (d : Duration) : bool :=
  match d with
  | Millis n => negb (n =? 0)%Z
  | Pretty s => negb (String.eqb s EmptyString)
  end.

Section Constructor.

(** [string.milliseconds.parse] of [@poppinss/utils]. *)
Variable milliseconds_parse : string -> Z.

(** [new Transmit(config, transport)]: the bus exists when a transport
    is given and then listens on the synchronization channel; the timer
    exists when the ping interval is truthy. *)
Definition new_Transmit (config : TransmitConfig)
  (transport : option Transport) : Transmit :=
  {| storage := StreamChannelRepository.empty;
     secureChannelStore := SecureChannelStore.empty;
     secureChannelCallbacks := ∅;
     bus :=
       match transport with
       | Some transport =>
           Some {| bus_transport := transport;
                   bus_subscribed := [transport_channel config] |}
       | None => None
       end;
     config := config;
     interval :=
       match pingInterval config with
       | Some d =>
           if duration_truthy d then
             Some (match d with
                   | Millis n => n
                   | Pretty s => milliseconds_parse s
                   end)
           else None
       | None => None
       end |}.

End Constructor.

(** One firing of the timer of [setInterval(() => this.#ping(), ...)]:
    without a timer nothing runs. *)
Definition interval_tick : M unit :=
  timer ← gets interval;
  match timer with
  | Some _ => ping
  | None => mret tt
  end.

(** A message delivered by the bus on [channel]: the handler runs when
    the bus exists and listens there. *)
Definition bus_deliver (channel : string) (message : TransmitMessage)
  : M unit :=
  b ← gets bus;
  match b with
  | Some b =>
      if bool_decide (channel ∈ bus_subscribed b)
      then on_bus_message message
      else mret tt
  | None => mret tt
  end.

(** ** Reading a log *)

Definition writes (log : list Effect) : list (Stream * Message) :=
  omap (fun e => match e with
                 | WriteMessage stream message => Some (stream, message)
                 | _ => None
                 end) log.

Definition published (log : list Effect) : list (string * TransmitMessage) :=
  omap (fun e => match e with
                 | BusPublish channel message => Some (channel, message)
                 | _ => None
                 end) log.

Definition emitted (log : list Effect) : list LifecycleEvent :=
  omap (fun e => match e with
                 | Emit event => Some event
                 | _ => None
                 end) log.

Definition callback_calls (log : list Effect)
  : list (string * HttpContext * list (string * string)) :=
  omap (fun e => match e with
                 | CallbackCall url ctx params => Some (url, ctx, params)
                 | _ => None
                 end) log.

(** [{ data: { channel, payload } }]. *)
Definition message_of (channel : string) (payload : Broadcastable)
  : Message :=
  {| data_channel := channel; data_payload := payload |}.

(** ** A running instance, for the examples *)

Definition example_config : TransmitConfig :=
  {| pingInterval := Some (Millis 30000);
     transport_channel := "transmit::broadcast" |}.

Definition ctx_a1 : HttpContext := {| conn := 1; input := {["uid" := "a1"]} |}.

Definition ctx_b2 : HttpContext := {| conn := 2; input := {["uid" := "b2"]} |}.

Definition stream_a1 : Stream := {| getUid := "a1"; stream_request := 1 |}.

Definition stream_b2 : Stream := {| getUid := "b2"; stream_request := 2 |}.

(** An instance with a bus and a heartbeat, before any connection. *)
Definition fresh_instance : Transmit :=
  new_Transmit (fun _ => 0%Z) example_config (Some (transport_driver "redis")).

(** Clients [a1] and [b2] connected; both subscribed to ["room/1"]. *)
Definition room_instance : Transmit :=
  final (createStream ctx_a1 ;;
         createStream ctx_b2 ;;
         subscribeToChannel "a1" "room/1" ctx_a1 ;;
         subscribeToChannel "b2" "room/1" ctx_b2) fresh_instance.

(** The callback of ["chat/:id"]: it refuses room 42, fails on room
    ["boom"] and accepts the others. *)
Definition chat_callback : Callback :=
  fun _ params =>
    match params with
    | [(_, id)] =>
        if String.eqb id "42" then Returns false
        else if String.eqb id "boom" then Throws
        else Returns true
    | _ => Returns true
    end.

(** [room_instance] after [authorizeChannel("chat/:id", chat_callback)]. *)
Definition chat_instance : Transmit :=
  final (authorizeChannel "chat/:id" chat_callback) room_instance.

(** A secured pattern whose callback is missing from the map. *)
Definition orphan_instance : Transmit :=
  {| storage := storage room_instance;
     secureChannelStore :=
       SecureChannelStore.add "admin/:id" SecureChannelStore.empty;
     secureChannelCallbacks := ∅;
     bus := bus room_instance;
     config := config room_instance;
     interval := interval room_instance |}.

(** A request whose [uid] field is the empty string. *)
Definition ctx_empty_uid : HttpContext :=
  {| conn := 3; input := {["uid" := EmptyString]} |}.

(** A request without a [uid] field. *)
Definition ctx_no_uid : HttpContext := {| conn := 4; input := ∅ |}.

(** ** Histories *)

(** What can happen to an instance: a call of a public method, the close
    of a response, a message from the bus, a firing of the timer. *)
Inductive Operation : Type :=
| op_createStream (ctx : HttpContext)
| op_close (stream : Stream) (ctx : HttpContext)
| op_authorizeChannel (channel : string) (callback : Callback)
| op_subscribe (uid channel : string) (ctx : HttpContext)
| op_unsubscribe (uid channel : string) (ctx : HttpContext)
| op_broadcast (channel : string) (payload : option Broadcastable)
| op_broadcastExcept (channel : string) (payload : Broadcastable)
    (senderUid : SenderUid)
| op_bus_deliver (channel : string) (message : TransmitMessage)
| op_interval_tick.

Definition perform (op : Operation) : M unit :=
  match op with
  | op_createStream ctx => createStream ctx ;; mret tt
  | op_close stream ctx => on_close stream ctx
  | op_authorizeChannel channel callback => authorizeChannel channel callback
  | op_subscribe uid channel ctx =>
      subscribeToChannel uid channel ctx ;; mret tt
  | op_unsubscribe uid channel ctx =>
      unsubscribeFromChannel uid channel ctx ;; mret tt
  | op_broadcast channel payload => broadcast channel payload
  | op_broadcastExcept channel payload senderUid =>
      broadcastExcept channel payload senderUid
  | op_bus_deliver channel message => bus_deliver channel message
  | op_interval_tick => interval_tick
  end.

(** The instance after a history; an operation that throws leaves the
    state it reached. *)
Definition after (history : list Operation) (t : Transmit) : Transmit :=
  foldl (fun t op => final (perform op) t) t history.

(** A request of a third client, [c3]. *)
Definition ctx_c3 : HttpContext := {| conn := 5; input := {["uid" := "c3"]} |}.

Definition stream_c3 : Stream := {| getUid := "c3"; stream_request := 5 |}.

(** [a1] connects and subscribes to ["room/1"]; [c3] only connects. *)
Definition lobby_history : list Operation :=
  [op_createStream ctx_a1;
   op_subscribe "a1" "room/1" ctx_a1;
   op_createStream ctx_c3].

(** The log of the loop of [#ping] for one entry of the registry. *)
Definition ping_step (subscriber : Stream * gset string) : list Effect :=
  [WriteMessage subscriber.1 (message_of ping_channel empty_object)].

(** The log of the fan-out loop for one subscriber. *)
Definition fanout_step (channel : string) (payload : Broadcastable)
    (senderUid : option SenderUid) (subscriber : Stream) : list Effect :=
  if is_sender senderUid (getUid subscriber) then []
  else [WriteMessage subscriber (message_of channel payload)].

(** ** Shutdown *)

(** The calls [shutdown] makes on the timers and on the bus. *)
Inductive ShutdownCall : Type :=
| call_clearInterval (period : Z)
| call_bus_disconnect (b : Bus).

(** [shutdown]: the timer is cleared when there is one, then the bus is
    disconnected when there is one; the fields are read-only and stay. *)
Definition shutdown (t : Transmit) : list ShutdownCall :=
  (match interval t with
   | Some period => [call_clearInterval period]
   | None => []
   end
   ++ match bus t with
      | Some b => [call_bus_disconnect b]
      | None => []
      end)%list.

(** ** Logs of histories, listeners, peers *)

(** The log of a whole history. *)
Fixpoint trace (history : list Operation) (t : Transmit) : list Effect :=
  match history with
  | [] => []
  | op :: rest =>
      (effects (perform op) t ++ trace rest (final (perform op) t))%list
  end.

(** The marks put on responses. *)
Definition response_marks (log : list Effect) : list Effect :=
  omap (fun e => match e with
                 | ResponseForbidden _ | ResponseInternalServerError _ =>
                     Some e
                 | _ => None
                 end) log.

(** The [close] listeners a log has registered, as the programs they
    run. *)
Definition close_listeners (log : list Effect) : list (M unit) :=
  omap (fun e => match e with
                 | ResponseOnClose ctx stream => Some (on_close stream ctx)
                 | _ => None
                 end) log.

(** What a peer instance does with the messages of a log: its handler
    runs on each published message, in order. *)
Definition relay (log : list Effect) : M unit :=
  for_of (published log).*2 on_bus_message.

(** An instance with other authorization rules. *)
Definition with_rules (store : SecureChannelStore.t)
    (callbacks : gmap string Callback) (t : Transmit) : Transmit :=
  {| storage := storage t;
     secureChannelStore := store;
     secureChannelCallbacks := callbacks;
     bus := bus t;
     config := config t;
     interval := interval t |}.

(** Every registered pattern has its callback. *)
Definition rules_complete (t : Transmit) : Prop :=
  forall pattern : string,
    pattern ∈ SecureChannelStore.patterns (secureChannelStore t) ->
    is_Some (secureChannelCallbacks t !! pattern).

(** * Properties *)

(** ** Running the monad *)

Lemma for_of_run {A : Type} (xs : list A) (body : A -> M unit)
    (out : A -> list Effect) (t : Transmit) :
  (forall x t', body x t' = (Normal tt, t', out x)) ->
  for_of xs body t = (Normal tt, t, xs ≫= out).
Proof.
  intros Hbody. induction xs as [|x xs IH]; [reflexivity|].
  cbn [for_of]. unfold mbind at 1, M_bind.
  rewrite Hbody, IH. reflexivity.
Qed.

Lemma broadcastLocally_run (channel : string) (payload : Broadcastable)
    (senderUid : option SenderUid) (t : Transmit) :
  broadcastLocally channel payload senderUid t =
  (Normal tt, t,
   Storage (call_findByChannel channel)
     :: (StreamChannelRepository.findByChannel channel (storage t)
           ≫= fanout_step channel payload senderUid)).
Proof.
  unfold broadcastLocally, mbind at 1, M_bind, storage_findByChannel.
  rewrite (for_of_run _ _ (fanout_step channel payload senderUid)).
  - reflexivity.
  - intros s t'. unfold fanout_step.
    destruct (is_sender senderUid (getUid s)); reflexivity.
Qed.

Lemma writes_fanout (channel : string) (payload : Broadcastable)
    (senderUid : option SenderUid) (P : Stream -> Prop)
    `{!forall s, Decision (P s)} (subscribers : list Stream) :
  (forall s, is_sender senderUid (getUid s) = false <-> P s) ->
  writes (subscribers ≫= fanout_step channel payload senderUid) =
  (fun s => (s, message_of channel payload)) <$> filter P subscribers.
Proof.
  intros HP. induction subscribers as [|s ss IH]; [reflexivity|].
  cbn [mbind list_bind]. unfold writes in *. rewrite omap_app, IH.
  unfold fanout_step at 1.
  destruct (is_sender senderUid (getUid s)) eqn:Hs.
  - rewrite filter_cons_False; [reflexivity|].
    intros HPs. apply HP in HPs. congruence.
  - rewrite filter_cons_True by (by apply HP). reflexivity.
Qed.

Lemma filter_all {A : Type} (xs : list A) : filter (fun _ => True) xs = xs.
Proof.
  induction xs as [|x xs IH]; [reflexivity|].
  rewrite filter_cons_True by done. by rewrite IH.
Qed.

Lemma writes_fanout_all (channel : string) (payload : Broadcastable)
    (subscribers : list Stream) :
  writes (subscribers ≫= fanout_step channel payload None) =
  (fun s => (s, message_of channel payload)) <$> subscribers.
Proof.
  rewrite (writes_fanout _ _ _ (fun _ => True)) by done.
  by rewrite filter_all.
Qed.

Lemma bus_publish_run (message : TransmitMessage) (t : Transmit) :
  bus_publish message t =
  (Normal tt, t,
   match bus t with
   | Some _ => [BusPublish (transport_channel (config t)) message]
   | None => []
   end).
Proof. unfold bus_publish. by destruct (bus t). Qed.

Lemma broadcast_run (channel : string) (payload : option Broadcastable)
    (t : Transmit) :
  broadcast channel payload t =
  (Normal tt, t,
   (match bus t with
    | Some _ =>
        [BusPublish (transport_channel (config t))
           (Broadcast channel (payload_or_empty payload))]
    | None => []
    end
    ++ Storage (call_findByChannel channel)
         :: (StreamChannelRepository.findByChannel channel (storage t)
               ≫= fanout_step channel (payload_or_empty payload) None)
    ++ [Emit (hook_broadcast channel (payload_or_empty payload))])%list).
Proof.
  unfold broadcast. unfold mbind at 1, M_bind. rewrite bus_publish_run.
  unfold mbind at 1, M_bind. rewrite broadcastLocally_run.
  reflexivity.
Qed.

Lemma broadcastExcept_run (channel : string) (payload : Broadcastable)
    (senderUid : SenderUid) (t : Transmit) :
  broadcastExcept channel payload senderUid t =
  (Normal tt, t,
   Storage (call_findByChannel channel)
     :: (StreamChannelRepository.findByChannel channel (storage t)
           ≫= fanout_step channel payload (Some senderUid))).
Proof. apply broadcastLocally_run. Qed.

Lemma published_fanout (channel : string) (payload : Broadcastable)
    (senderUid : option SenderUid) (subscribers : list Stream) :
  published (subscribers ≫= fanout_step channel payload senderUid) = [].
Proof.
  induction subscribers as [|s ss IH]; [reflexivity|].
  cbn [mbind list_bind]. unfold published in *. rewrite omap_app, IH.
  unfold fanout_step. by destruct (is_sender senderUid (getUid s)).
Qed.

Lemma writes_broadcast (channel : string) (payload : option Broadcastable)
    (t : Transmit) :
  writes (effects (broadcast channel payload) t) =
  (fun s => (s, message_of channel (payload_or_empty payload)))
    <$> StreamChannelRepository.findByChannel channel (storage t).
Proof.
  unfold effects. rewrite broadcast_run. cbn [snd].
  unfold writes. rewrite omap_app. cbn [omap list_omap].
  rewrite omap_app. fold writes. rewrite writes_fanout_all.
  destruct (bus t); cbn; by rewrite app_nil_r.
Qed.

(** ** Local fan-out: who receives a broadcast *)

(** C1, as amended: [broadcast] writes to exactly the streams of
    [findByChannel(channel)], in that order and once each, the payload
    when it is truthy and the empty object [{}] when it is omitted or
    falsy; [broadcastExcept] writes the payload as given to those of the
    same streams whose uid is not the excluded uid, or not in the excluded
    list. *)
Theorem broadcast_delivers_to_channel_subscribers
    (t : Transmit) (channel : string) :
  let subscribers :=
    StreamChannelRepository.findByChannel channel (storage t) in
  writes (effects (broadcast channel None) t) =
    (fun s => (s, message_of channel (BObject []))) <$> subscribers
  /\ (forall payload : Broadcastable,
        writes (effects (broadcast channel (Some payload)) t) =
        (fun s => (s, message_of channel
                        (if truthy payload then payload else BObject [])))
          <$> subscribers)
  /\ (forall (payload : Broadcastable) (excluded : string),
        writes (effects (broadcastExcept channel payload (OneUid excluded)) t)
        = (fun s => (s, message_of channel payload))
            <$> filter (fun s => getUid s <> excluded) subscribers)
  /\ (forall (payload : Broadcastable) (excluded : list string),
        writes (effects (broadcastExcept channel payload (ManyUids excluded))
                  t)
        = (fun s => (s, message_of channel payload))
            <$> filter (fun s => getUid s ∉ excluded) subscribers).
Proof.
  intros subscribers. repeat split.
  - apply writes_broadcast.
  - intros payload. rewrite writes_broadcast. cbn [payload_or_empty].
    by destruct (truthy payload).
  - intros payload excluded. unfold effects.
    rewrite broadcastExcept_run. cbn [snd]. unfold writes.
    cbn [omap list_omap]. fold writes. apply writes_fanout.
    intros s. cbn [is_sender].
    destruct (String.eqb_spec excluded (getUid s)); split; congruence.
  - intros payload excluded. unfold effects.
    rewrite broadcastExcept_run. cbn [snd]. unfold writes.
    cbn [omap list_omap]. fold writes. apply writes_fanout.
    intros s. cbn [is_sender]. rewrite bool_decide_eq_false. done.
Qed.

(** C1, as stated, fails: with [a1] and [b2] on ["room/1"],
    [broadcast("room/1", 0)] writes [{}] to them, not the payload [0]. *)
Lemma broadcast_falsy_payload_not_delivered :
  StreamChannelRepository.findByChannel "room/1" (storage room_instance)
    = [stream_a1; stream_b2]
  /\ writes (effects (broadcast "room/1" (Some (BNumber 0))) room_instance)
     = [(stream_a1, message_of "room/1" (BObject []));
        (stream_b2, message_of "room/1" (BObject []))]
  /\ writes (effects (broadcast "room/1" (Some (BNumber 0))) room_instance)
     <> (fun s => (s, message_of "room/1" (BNumber 0)))
          <$> StreamChannelRepository.findByChannel "room/1"
                (storage room_instance).
Proof.
  split; [|split].
  - vm_compute. reflexivity.
  - vm_compute. reflexivity.
  - vm_compute. discriminate.
Qed.


Lemma emitted_fanout (channel : string) (payload : Broadcastable)
    (senderUid : option SenderUid) (subscribers : list Stream) :
  emitted (subscribers ≫= fanout_step channel payload senderUid) = [].
Proof.
  induction subscribers as [|s ss IH]; [reflexivity|].
  cbn [mbind list_bind]. unfold emitted in *. rewrite omap_app, IH.
  unfold fanout_step. by destruct (is_sender senderUid (getUid s)).
Qed.

Lemma callback_calls_fanout (channel : string) (payload : Broadcastable)
    (senderUid : option SenderUid) (subscribers : list Stream) :
  callback_calls (subscribers ≫= fanout_step channel payload senderUid) = [].
Proof.
  induction subscribers as [|s ss IH]; [reflexivity|].
  cbn [mbind list_bind]. unfold callback_calls in *. rewrite omap_app, IH.
  unfold fanout_step. by destruct (is_sender senderUid (getUid s)).
Qed.

Lemma fanout_no_sender (channel : string) (payload : Broadcastable)
    (subscribers : list Stream) :
  subscribers ≫= fanout_step channel payload None =
  (fun s => WriteMessage s (message_of channel payload)) <$> subscribers.
Proof.
  induction subscribers as [|s ss IH]; [reflexivity|].
  cbn [mbind list_bind fmap list_fmap]. by rewrite IH.
Qed.

Lemma published_broadcast (channel : string) (payload : option Broadcastable)
    (t : Transmit) :
  published (effects (broadcast channel payload) t) =
  match bus t with
  | Some _ =>
      [(transport_channel (config t),
        Broadcast channel (payload_or_empty payload))]
  | None => []
  end.
Proof.
  unfold effects. rewrite broadcast_run. cbn [snd].
  unfold published. rewrite omap_app. cbn [omap list_omap].
  rewrite omap_app. fold published. rewrite published_fanout.
  by destruct (bus t).
Qed.

Lemma emitted_broadcast (channel : string) (payload : option Broadcastable)
    (t : Transmit) :
  emitted (effects (broadcast channel payload) t) =
  [hook_broadcast channel (payload_or_empty payload)].
Proof.
  unfold effects. rewrite broadcast_run. cbn [snd].
  unfold emitted. rewrite omap_app. cbn [omap list_omap].
  rewrite omap_app. fold emitted. rewrite emitted_fanout.
  by destruct (bus t).
Qed.

Lemma payload_or_empty_falsy (payload : option Broadcastable) :
  truthy_opt payload = false -> payload_or_empty payload = BObject [].
Proof.
  destruct payload as [p|]; [|reflexivity].
  cbn. by intros ->.
Qed.

(** ** Messages from the bus *)

(** C2: the handler of the bus dispatches on the tag.  A Broadcast asks
    the registry for the channel's streams and writes the payload to each
    of them, and nothing else; a Subscribe is one call of
    [addChannelToStream(uid, channel)] and an Unsubscribe one call of
    [removeChannelFromStream(uid, channel)], whose new registry is kept.
    No message is published, no authorization callback is called and no
    event is emitted, whatever the message. *)
Theorem bus_handler_dispatches_by_tag
    (t : Transmit) (message : TransmitMessage) :
  published (effects (on_bus_message message) t) = []
  /\ callback_calls (effects (on_bus_message message) t) = []
  /\ emitted (effects (on_bus_message message) t) = []
  /\ match message with
     | Broadcast channel payload =>
         on_bus_message message t =
         (Normal tt, t,
          Storage (call_findByChannel channel)
            :: ((fun s => WriteMessage s (message_of channel payload))
                  <$> StreamChannelRepository.findByChannel channel
                        (storage t)))
     | Subscribe channel uid =>
         on_bus_message message t =
         (Normal tt,
          set_storage
            (StreamChannelRepository.addChannelToStream uid channel
               (storage t)).2 t,
          [Storage (call_addChannelToStream uid channel)])
     | Unsubscribe channel uid =>
         on_bus_message message t =
         (Normal tt,
          set_storage
            (StreamChannelRepository.removeChannelFromStream uid channel
               (storage t)).2 t,
          [Storage (call_removeChannelFromStream uid channel)])
     end.
Proof.
  destruct message as [channel payload|channel uid|channel uid].
  - unfold effects. cbn [on_bus_message].
    rewrite broadcastLocally_run. cbn [snd].
    split; [|split; [|split]].
    + unfold published. cbn [omap list_omap]. apply published_fanout.
    + unfold callback_calls. cbn [omap list_omap].
      apply callback_calls_fanout.
    + unfold emitted. cbn [omap list_omap]. apply emitted_fanout.
    + by rewrite fanout_no_sender.
  - unfold effects. cbn [on_bus_message].
    unfold mbind, M_bind, storage_addChannelToStream.
    destruct (StreamChannelRepository.addChannelToStream uid channel
                (storage t)) as [ok r].
    repeat split.
  - unfold effects. cbn [on_bus_message].
    unfold mbind, M_bind, storage_removeChannelFromStream.
    destruct (StreamChannelRepository.removeChannelFromStream uid channel
                (storage t)) as [ok r].
    repeat split.
Qed.

(** ** What reaches the bus *)

(** C3: [broadcastExcept] fans out locally and publishes nothing: it
    writes the payload to every stream of [findByChannel(channel)] whose
    uid is not the excluded uid (or not in the excluded list), to those
    streams only, and its log has no publication.  [broadcast], when the
    instance has a bus, publishes one Broadcast message on the configured
    synchronization channel, and fans out locally as well, to every
    stream of [findByChannel(channel)]. *)
Theorem broadcastExcept_is_local_broadcast_publishes
    (t : Transmit) (channel : string) :
  let subscribers :=
    StreamChannelRepository.findByChannel channel (storage t) in
  (forall (payload : Broadcastable) (excluded : string),
      published (effects (broadcastExcept channel payload (OneUid excluded))
                   t) = []
      /\ writes (effects (broadcastExcept channel payload (OneUid excluded))
                   t) =
         (fun s => (s, message_of channel payload))
           <$> filter (fun s => getUid s <> excluded) subscribers)
  /\ (forall (payload : Broadcastable) (excluded : list string),
        published (effects (broadcastExcept channel payload
                              (ManyUids excluded)) t) = []
        /\ writes (effects (broadcastExcept channel payload
                              (ManyUids excluded)) t) =
           (fun s => (s, message_of channel payload))
             <$> filter (fun s => getUid s ∉ excluded) subscribers)
  /\ (forall (payload : option Broadcastable) (b : Bus),
        bus t = Some b ->
        published (effects (broadcast channel payload) t) =
          [(transport_channel (config t),
            Broadcast channel (payload_or_empty payload))]
        /\ writes (effects (broadcast channel payload) t) =
           (fun s => (s, message_of channel (payload_or_empty payload)))
             <$> subscribers).
Proof.
  intros subscribers. subst subscribers. split; [|split].
  - intros payload excluded. unfold effects.
    rewrite broadcastExcept_run. cbn [snd]. split.
    + unfold published. cbn [omap list_omap]. apply published_fanout.
    + unfold writes. cbn [omap list_omap]. fold writes.
      apply writes_fanout. intros s. cbn [is_sender].
      destruct (String.eqb_spec excluded (getUid s)); split; congruence.
  - intros payload excluded. unfold effects.
    rewrite broadcastExcept_run. cbn [snd]. split.
    + unfold published. cbn [omap list_omap]. apply published_fanout.
    + unfold writes. cbn [omap list_omap]. fold writes.
      apply writes_fanout. intros s. cbn [is_sender].
      by rewrite bool_decide_eq_false.
  - intros payload b Hbus. split.
    + by rewrite published_broadcast, Hbus.
    + apply writes_broadcast.
Qed.

Lemma broadcastExcept_is_local_broadcast_publishes_witness :
  bus room_instance
    = Some {| bus_transport := transport_driver "redis";
              bus_subscribed := ["transmit::broadcast"] |}
  /\ published (effects (broadcast "room/1" (Some (BString "hi")))
                  room_instance)
     = [("transmit::broadcast", Broadcast "room/1" (BString "hi"))]
  /\ writes (effects (broadcast "room/1" (Some (BString "hi")))
               room_instance)
     = [(stream_a1, message_of "room/1" (BString "hi"));
        (stream_b2, message_of "room/1" (BString "hi"))]
  /\ published (effects (broadcastExcept "room/1" (BString "hi")
                           (OneUid "a1")) room_instance) = []
  /\ writes (effects (broadcastExcept "room/1" (BString "hi")
                        (OneUid "a1")) room_instance)
     = [(stream_b2, message_of "room/1" (BString "hi"))]
  /\ writes (effects (broadcastExcept "room/1" (BString "hi")
                        (ManyUids [])) room_instance)
     = [(stream_a1, message_of "room/1" (BString "hi"));
        (stream_b2, message_of "room/1" (BString "hi"))]
  /\ writes (effects (broadcastExcept "room/1" (BString "hi")
                        (ManyUids ["b2"; "zz"])) room_instance)
     = [(stream_a1, message_of "room/1" (BString "hi"))].
Proof.
  destruct (broadcastExcept_is_local_broadcast_publishes
              room_instance "room/1") as (Hone & Hmany & Hbroadcast).
  destruct (Hbroadcast (Some (BString "hi")) _ eq_refl) as [Hpub Hwrites].
  destruct (Hone (BString "hi") "a1") as [Hpub1 Hwrites1].
  destruct (Hmany (BString "hi") []) as [_ Hwrites0].
  destruct (Hmany (BString "hi") ["b2"; "zz"]) as [_ Hwrites2].
  split; [reflexivity|].
  split; [exact Hpub|].
  split; [rewrite Hwrites; reflexivity|].
  split; [exact Hpub1|].
  split; [rewrite Hwrites1; reflexivity|].
  split; [rewrite Hwrites0; reflexivity|].
  rewrite Hwrites2; reflexivity.
Defined.

(** ** Falsy payloads *)

(** C10: [broadcast] with an omitted payload, or with [0], the empty
    string, [false] or [null] (any falsy payload), writes the empty object
    [{}] to the subscribers, publishes [{}] in the Broadcast message when
    there is a bus, and emits the broadcast event with [{}]. *)
Theorem broadcast_replaces_falsy_payload
    (t : Transmit) (channel : string) (payload : option Broadcastable) :
  In payload [None; Some (BNumber 0); Some (BString EmptyString);
              Some (BBoolean false); Some BNull]
  \/ truthy_opt payload = false ->
  writes (effects (broadcast channel payload) t) =
    (fun s => (s, message_of channel (BObject [])))
      <$> StreamChannelRepository.findByChannel channel (storage t)
  /\ published (effects (broadcast channel payload) t) =
     match bus t with
     | Some _ =>
         [(transport_channel (config t), Broadcast channel (BObject []))]
     | None => []
     end
  /\ emitted (effects (broadcast channel payload) t) =
     [hook_broadcast channel (BObject [])].
Proof.
  intros Hfalsy.
  assert (truthy_opt payload = false) as Hf.
  { destruct Hfalsy as [Hin|]; [|done].
    cbn in Hin. by repeat (destruct Hin as [<-|Hin]). }
  rewrite writes_broadcast, published_broadcast, emitted_broadcast.
  by rewrite (payload_or_empty_falsy _ Hf).
Qed.

Lemma broadcast_replaces_falsy_payload_witness :
  writes (effects (broadcast "room/1" (Some (BNumber 0))) room_instance) =
    (fun s => (s, message_of "room/1" (BObject [])))
      <$> StreamChannelRepository.findByChannel "room/1"
            (storage room_instance)
  /\ published (effects (broadcast "room/1" (Some (BNumber 0)))
                  room_instance) =
     match bus room_instance with
     | Some _ =>
         [(transport_channel (config room_instance),
           Broadcast "room/1" (BObject []))]
     | None => []
     end
  /\ emitted (effects (broadcast "room/1" (Some (BNumber 0))) room_instance)
     = [hook_broadcast "room/1" (BObject [])].
Proof.
  apply (broadcast_replaces_falsy_payload room_instance "room/1"
           (Some (BNumber 0))).
  left. right. left. reflexivity.
Defined.


(** ** Subscribing and unsubscribing *)

Lemma set_storage_same (t : Transmit) : set_storage (storage t) t = t.
Proof. by destruct t. Qed.

(** The tail of [$subscribeToChannel], from line 190 on. *)
Lemma subscribe_proceed_run (uid channel : string) (ctx : HttpContext)
    (t : Transmit) :
  (emit (hook_subscribe uid channel ctx) ;;
   bus_publish (Subscribe channel uid) ;;
   storage_addChannelToStream uid channel) t =
  (Normal (StreamChannelRepository.addChannelToStream uid channel
             (storage t)).1,
   set_storage (StreamChannelRepository.addChannelToStream uid channel
                  (storage t)).2 t,
   (Emit (hook_subscribe uid channel ctx)
      :: match bus t with
         | Some _ =>
             [BusPublish (transport_channel (config t))
                (Subscribe channel uid)]
         | None => []
         end
      ++ [Storage (call_addChannelToStream uid channel)])%list).
Proof.
  unfold mbind, M_bind, emit, tell. rewrite bus_publish_run.
  unfold storage_addChannelToStream.
  by destruct (StreamChannelRepository.addChannelToStream uid channel
                 (storage t)).
Qed.

Lemma subscribe_public_run (uid channel : string) (ctx : HttpContext)
    (t : Transmit) :
  SecureChannelStore.match_ channel (secureChannelStore t) = None ->
  subscribeToChannel uid channel ctx t =
  (emit (hook_subscribe uid channel ctx) ;;
   bus_publish (Subscribe channel uid) ;;
   storage_addChannelToStream uid channel) t.
Proof.
  intros Hmatch. unfold subscribeToChannel.
  unfold mbind at 1, M_bind at 1, gets at 1. rewrite Hmatch.
  by rewrite subscribe_proceed_run.
Qed.

Lemma subscribe_secured_run (uid channel : string) (ctx : HttpContext)
    (t : Transmit) (d : SecureChannelStore.definitions) (callback : Callback) :
  SecureChannelStore.match_ channel (secureChannelStore t) = Some d ->
  secureChannelCallbacks t !! SecureChannelStore.url d = Some callback ->
  subscribeToChannel uid channel ctx t =
  match callback ctx (SecureChannelStore.params d) with
  | Returns true =>
      let '(r, t', log) :=
        (emit (hook_subscribe uid channel ctx) ;;
         bus_publish (Subscribe channel uid) ;;
         storage_addChannelToStream uid channel) t in
      (r, t',
       CallbackCall (SecureChannelStore.url d) ctx
         (SecureChannelStore.params d) :: log)
  | Returns false =>
      (Normal false, t,
       [CallbackCall (SecureChannelStore.url d) ctx
          (SecureChannelStore.params d);
        ResponseForbidden ctx])
  | Throws =>
      (Normal false, t,
       [CallbackCall (SecureChannelStore.url d) ctx
          (SecureChannelStore.params d);
        ResponseInternalServerError ctx])
  end.
Proof.
  intros Hmatch Hcallback. unfold subscribeToChannel.
  unfold mbind at 1, M_bind at 1, gets at 1. rewrite Hmatch.
  unfold mbind at 1, M_bind at 1, gets at 1. rewrite Hcallback.
  unfold mbind at 1, M_bind at 1, call_callback at 1.
  unfold mbind at 1, M_bind at 1, tell at 1, mret at 1, M_ret at 1.
  destruct (callback ctx (SecureChannelStore.params d)) as [[]|].
  - by rewrite subscribe_proceed_run.
  - reflexivity.
  - reflexivity.
Qed.

Lemma subscribe_orphan_run (uid channel : string) (ctx : HttpContext)
    (t : Transmit) (d : SecureChannelStore.definitions) :
  SecureChannelStore.match_ channel (secureChannelStore t) = Some d ->
  secureChannelCallbacks t !! SecureChannelStore.url d = None ->
  subscribeToChannel uid channel ctx t = (Normal false, t, []).
Proof.
  intros Hmatch Hcallback. unfold subscribeToChannel.
  unfold mbind at 1, M_bind at 1, gets at 1. rewrite Hmatch.
  unfold mbind at 1, M_bind at 1, gets at 1. by rewrite Hcallback.
Qed.

Lemma unsubscribe_run (uid channel : string) (ctx : HttpContext)
    (t : Transmit) :
  unsubscribeFromChannel uid channel ctx t =
  (Normal (StreamChannelRepository.removeChannelFromStream uid channel
             (storage t)).1,
   set_storage (StreamChannelRepository.removeChannelFromStream uid channel
                  (storage t)).2 t,
   (Emit (hook_unsubscribe uid channel ctx)
      :: match bus t with
         | Some _ =>
             [BusPublish (transport_channel (config t))
                (Unsubscribe channel uid)]
         | None => []
         end
      ++ [Storage (call_removeChannelFromStream uid channel)])%list).
Proof.
  unfold unsubscribeFromChannel, mbind, M_bind, emit, tell.
  rewrite bus_publish_run. unfold storage_removeChannelFromStream.
  by destruct (StreamChannelRepository.removeChannelFromStream uid channel
                 (storage t)).
Qed.

Lemma addChannelToStream_unknown (uid channel : string)
    (r : StreamChannelRepository.t) :
  StreamChannelRepository.clients r !! uid = None ->
  StreamChannelRepository.addChannelToStream uid channel r = (false, r).
Proof.
  intros Hnone. unfold StreamChannelRepository.addChannelToStream.
  by rewrite Hnone.
Qed.

Lemma removeChannelFromStream_unknown (uid channel : string)
    (r : StreamChannelRepository.t) :
  StreamChannelRepository.clients r !! uid = None ->
  StreamChannelRepository.removeChannelFromStream uid channel r = (false, r).
Proof.
  intros Hnone. unfold StreamChannelRepository.removeChannelFromStream.
  by rewrite Hnone.
Qed.

(** C4: when no stream is registered for [uid], [subscribe] returns false
    (it does not throw) and the registry, with its two indices, is what it
    was; this holds on public and on secured channels, whatever the
    callback answers. *)
Theorem subscribe_unregistered_uid_returns_false
    (t : Transmit) (uid channel : string) (ctx : HttpContext) :
  StreamChannelRepository.clients (storage t) !! uid = None ->
  completion (subscribeToChannel uid channel ctx) t = Normal false
  /\ storage (final (subscribeToChannel uid channel ctx) t) = storage t
  /\ StreamChannelRepository.clients
       (storage (final (subscribeToChannel uid channel ctx) t))
     = StreamChannelRepository.clients (storage t)
  /\ StreamChannelRepository.channels
       (storage (final (subscribeToChannel uid channel ctx) t))
     = StreamChannelRepository.channels (storage t).
Proof.
  intros Hnone.
  assert (completion (subscribeToChannel uid channel ctx) t = Normal false
          /\ storage (final (subscribeToChannel uid channel ctx) t)
             = storage t) as [Hc Hs].
  { unfold completion, final.
    destruct (SecureChannelStore.match_ channel (secureChannelStore t))
      as [d|] eqn:Hmatch.
    - destruct (secureChannelCallbacks t !! SecureChannelStore.url d)
        as [callback|] eqn:Hcallback.
      + rewrite (subscribe_secured_run _ _ _ _ _ _ Hmatch Hcallback).
        destruct (callback ctx (SecureChannelStore.params d)) as [[]|];
          [|done|done].
        rewrite subscribe_proceed_run.
        by rewrite (addChannelToStream_unknown _ _ _ Hnone).
      + by rewrite (subscribe_orphan_run _ _ _ _ _ Hmatch Hcallback).
    - rewrite (subscribe_public_run _ _ _ _ Hmatch), subscribe_proceed_run.
      by rewrite (addChannelToStream_unknown _ _ _ Hnone). }
  by rewrite Hc, Hs.
Qed.

Lemma subscribe_unregistered_uid_returns_false_witness :
  StreamChannelRepository.clients (storage room_instance) !! "zz" = None
  /\ completion (subscribeToChannel "zz" "room/1" ctx_a1) room_instance
     = Normal false
  /\ storage (final (subscribeToChannel "zz" "room/1" ctx_a1) room_instance)
     = storage room_instance.
Proof.
  split; [reflexivity|].
  destruct (subscribe_unregistered_uid_returns_false
              room_instance "zz" "room/1" ctx_a1 eq_refl) as (Hc & Hs & _).
  exact (conj Hc Hs).
Defined.

(** C5: on a channel that matches a secured pattern whose callback is
    stored, a callback that answers false makes [subscribe] mark the
    response forbidden, and one that raises makes it mark the response as
    an internal error; either way [subscribe] returns false without
    throwing, the instance (registry included) is unchanged, and the call
    of the callback and the mark on the response are all that happened. *)
Theorem subscribe_denied_or_failed_authorization
    (t : Transmit) (uid channel : string) (ctx : HttpContext)
    (d : SecureChannelStore.definitions) (callback : Callback) :
  SecureChannelStore.match_ channel (secureChannelStore t) = Some d ->
  secureChannelCallbacks t !! SecureChannelStore.url d = Some callback ->
  match callback ctx (SecureChannelStore.params d) with
  | Returns true => True
  | Returns false =>
      subscribeToChannel uid channel ctx t =
      (Normal false, t,
       [CallbackCall (SecureChannelStore.url d) ctx
          (SecureChannelStore.params d);
        ResponseForbidden ctx])
  | Throws =>
      subscribeToChannel uid channel ctx t =
      (Normal false, t,
       [CallbackCall (SecureChannelStore.url d) ctx
          (SecureChannelStore.params d);
        ResponseInternalServerError ctx])
  end.
Proof.
  intros Hmatch Hcallback.
  rewrite (subscribe_secured_run _ _ _ _ _ _ Hmatch Hcallback).
  by destruct (callback ctx (SecureChannelStore.params d)) as [[]|].
Qed.

Lemma subscribe_denied_or_failed_authorization_witness :
  subscribeToChannel "a1" "chat/42" ctx_a1 chat_instance =
    (Normal false, chat_instance,
     [CallbackCall "chat/:id" ctx_a1 [("id", "42")];
      ResponseForbidden ctx_a1])
  /\ subscribeToChannel "a1" "chat/boom" ctx_a1 chat_instance =
     (Normal false, chat_instance,
      [CallbackCall "chat/:id" ctx_a1 [("id", "boom")];
       ResponseInternalServerError ctx_a1]).
Proof.
  split.
  - exact (subscribe_denied_or_failed_authorization
             chat_instance "a1" "chat/42" ctx_a1
             {| SecureChannelStore.url := "chat/:id";
                SecureChannelStore.params := [("id", "42")] |}
             chat_callback eq_refl eq_refl).
  - exact (subscribe_denied_or_failed_authorization
             chat_instance "a1" "chat/boom" ctx_a1
             {| SecureChannelStore.url := "chat/:id";
                SecureChannelStore.params := [("id", "boom")] |}
             chat_callback eq_refl eq_refl).
Defined.

(** C6: on a channel that matches a secured pattern with no stored
    callback, [subscribe] returns false, whatever the uid and the context,
    and does nothing else: the log is empty (no callback called, no event
    emitted, nothing published, no call on the registry) and the instance
    is unchanged. *)
Theorem subscribe_secured_without_callback_denies
    (t : Transmit) (uid channel : string) (ctx : HttpContext)
    (d : SecureChannelStore.definitions) :
  SecureChannelStore.match_ channel (secureChannelStore t) = Some d ->
  secureChannelCallbacks t !! SecureChannelStore.url d = None ->
  subscribeToChannel uid channel ctx t = (Normal false, t, []).
Proof. apply subscribe_orphan_run. Qed.

Lemma subscribe_secured_without_callback_denies_witness :
  subscribeToChannel "a1" "admin/7" ctx_a1 orphan_instance =
  (Normal false, orphan_instance, []).
Proof.
  exact (subscribe_secured_without_callback_denies
           orphan_instance "a1" "admin/7" ctx_a1
           {| SecureChannelStore.url := "admin/:id";
              SecureChannelStore.params := [("id", "7")] |}
           eq_refl eq_refl).
Defined.


(** C9: once authorization has passed (public channel, or callback
    answering true), [subscribe] emits its event, then publishes the
    Subscribe message when there is a bus, and only then calls the
    registry; [unsubscribe] does the same with its own event and message.
    The log does not depend on what the registry answers: with a bus, a
    [subscribe] for a uid without a stream returns false and has still
    published its Subscribe message, and an [unsubscribe] that returns
    false has still published its Unsubscribe message. *)
Theorem subscribe_unsubscribe_announce_before_registry
    (t : Transmit) (uid channel : string) (ctx : HttpContext) :
  let announce (message : TransmitMessage) : list Effect :=
    match bus t with
    | Some _ => [BusPublish (transport_channel (config t)) message]
    | None => []
    end in
  (SecureChannelStore.match_ channel (secureChannelStore t) = None ->
   effects (subscribeToChannel uid channel ctx) t =
   (Emit (hook_subscribe uid channel ctx)
      :: announce (Subscribe channel uid)
      ++ [Storage (call_addChannelToStream uid channel)])%list)
  /\ (forall (d : SecureChannelStore.definitions) (callback : Callback),
        SecureChannelStore.match_ channel (secureChannelStore t) = Some d ->
        secureChannelCallbacks t !! SecureChannelStore.url d = Some callback ->
        callback ctx (SecureChannelStore.params d) = Returns true ->
        effects (subscribeToChannel uid channel ctx) t =
        (CallbackCall (SecureChannelStore.url d) ctx
           (SecureChannelStore.params d)
           :: Emit (hook_subscribe uid channel ctx)
           :: announce (Subscribe channel uid)
           ++ [Storage (call_addChannelToStream uid channel)])%list)
  /\ effects (unsubscribeFromChannel uid channel ctx) t =
     (Emit (hook_unsubscribe uid channel ctx)
        :: announce (Unsubscribe channel uid)
        ++ [Storage (call_removeChannelFromStream uid channel)])%list
  /\ (forall b : Bus,
        bus t = Some b ->
        SecureChannelStore.match_ channel (secureChannelStore t) = None ->
        StreamChannelRepository.clients (storage t) !! uid = None ->
        completion (subscribeToChannel uid channel ctx) t = Normal false
        /\ emitted (effects (subscribeToChannel uid channel ctx) t)
           = [hook_subscribe uid channel ctx]
        /\ published (effects (subscribeToChannel uid channel ctx) t)
           = [(transport_channel (config t), Subscribe channel uid)])
  /\ (forall b : Bus,
        bus t = Some b ->
        (StreamChannelRepository.removeChannelFromStream uid channel
           (storage t)).1 = false ->
        completion (unsubscribeFromChannel uid channel ctx) t = Normal false
        /\ emitted (effects (unsubscribeFromChannel uid channel ctx) t)
           = [hook_unsubscribe uid channel ctx]
        /\ published (effects (unsubscribeFromChannel uid channel ctx) t)
           = [(transport_channel (config t), Unsubscribe channel uid)]).
Proof.
  intros announce. subst announce. cbv beta.
  split; [|split; [|split; [|split]]].
  - intros Hmatch. unfold effects.
    by rewrite (subscribe_public_run _ _ _ _ Hmatch), subscribe_proceed_run.
  - intros d callback Hmatch Hcallback Hresult. unfold effects.
    rewrite (subscribe_secured_run _ _ _ _ _ _ Hmatch Hcallback), Hresult.
    by rewrite subscribe_proceed_run.
  - unfold effects. by rewrite unsubscribe_run.
  - intros b Hbus Hmatch Hnone. unfold completion, effects.
    rewrite (subscribe_public_run _ _ _ _ Hmatch), subscribe_proceed_run.
    rewrite (addChannelToStream_unknown _ _ _ Hnone), Hbus. done.
  - intros b Hbus Hfalse. unfold completion, effects.
    rewrite unsubscribe_run, Hfalse, Hbus. done.
Qed.

Lemma subscribe_unsubscribe_announce_before_registry_witness :
  completion (subscribeToChannel "zz" "room/1" ctx_a1) room_instance
    = Normal false
  /\ emitted (effects (subscribeToChannel "zz" "room/1" ctx_a1) room_instance)
     = [hook_subscribe "zz" "room/1" ctx_a1]
  /\ published (effects (subscribeToChannel "zz" "room/1" ctx_a1)
                  room_instance)
     = [("transmit::broadcast", Subscribe "room/1" "zz")].
Proof.
  exact (proj1 (proj2 (proj2 (proj2
           (subscribe_unsubscribe_announce_before_registry
              room_instance "zz" "room/1" ctx_a1))))
           _ eq_refl eq_refl eq_refl).
Defined.

(** ** Opening a stream *)

Lemma createStream_falsy_run (ctx : HttpContext) (t : Transmit) :
  input_falsy (request_input ctx "uid") = true ->
  createStream ctx t = (Throw missing_uid, t, []).
Proof. intros Hfalsy. unfold createStream. by rewrite Hfalsy. Qed.

Lemma createStream_run (ctx : HttpContext) (t : Transmit) (uid : string) :
  request_input ctx "uid" = Some uid ->
  uid <> EmptyString ->
  let stream := {| getUid := uid; stream_request := conn ctx |} in
  createStream ctx t =
  (Normal stream,
   set_storage (StreamChannelRepository.push stream (storage t)) t,
   [StreamPipe stream ctx;
    Emit (hook_connect uid ctx);
    Storage (call_push stream);
    ResponseOnClose ctx stream;
    ResponseStream ctx stream]).
Proof.
  intros Hinput Hne stream. unfold createStream. rewrite Hinput.
  cbn [input_falsy default].
  destruct (String.eqb_spec uid EmptyString) as [|_]; [done|].
  reflexivity.
Qed.

(** C7, as amended: when the request has no [uid], or an empty one,
    [createStream] throws the error about the missing field before it
    creates or registers anything, and the instance is unchanged; when the
    request has a non-empty [uid], a stream with that uid is created,
    pushed on the registry (where it is then found under its uid, with no
    channel) and returned. *)
Theorem createStream_requires_nonempty_uid
    (t : Transmit) (ctx : HttpContext) :
  (request_input ctx "uid" = None
   \/ request_input ctx "uid" = Some EmptyString ->
   createStream ctx t = (Throw missing_uid, t, []))
  /\ (forall uid : string,
        request_input ctx "uid" = Some uid ->
        uid <> EmptyString ->
        let stream := {| getUid := uid; stream_request := conn ctx |} in
        completion (createStream ctx) t = Normal stream
        /\ storage (final (createStream ctx) t)
           = StreamChannelRepository.push stream (storage t)
        /\ StreamChannelRepository.clients
             (storage (final (createStream ctx) t)) !! uid
           = Some (stream, ∅)).
Proof.
  split.
  - intros [Hnone|Hempty]; apply createStream_falsy_run.
    + by rewrite Hnone.
    + by rewrite Hempty.
  - intros uid Hinput Hne stream. unfold completion, final.
    rewrite (createStream_run _ _ _ Hinput Hne). cbn.
    repeat split. apply lookup_insert_eq.
Qed.

Lemma createStream_requires_nonempty_uid_witness :
  createStream ctx_no_uid fresh_instance
    = (Throw missing_uid, fresh_instance, [])
  /\ completion (createStream ctx_a1) fresh_instance = Normal stream_a1
  /\ StreamChannelRepository.clients
       (storage (final (createStream ctx_a1) fresh_instance)) !! "a1"
     = Some (stream_a1, ∅).
Proof.
  split.
  - apply (proj1 (createStream_requires_nonempty_uid
                    fresh_instance ctx_no_uid)).
    left. reflexivity.
  - destruct (proj2 (createStream_requires_nonempty_uid
                       fresh_instance ctx_a1) "a1" eq_refl)
      as (Hc & _ & Hr); [discriminate|].
    exact (conj Hc Hr).
Defined.

(** C7, as stated, fails: a request whose [uid] is the empty string does
    carry a uid, yet [createStream] throws and returns no stream. *)
Lemma createStream_rejects_empty_uid :
  request_input ctx_empty_uid "uid" = Some EmptyString
  /\ createStream ctx_empty_uid fresh_instance
     = (Throw missing_uid, fresh_instance, [])
  /\ (forall stream : Stream,
        completion (createStream ctx_empty_uid) fresh_instance
        <> Normal stream).
Proof.
  split; [reflexivity|]. split; [reflexivity|].
  intros stream. vm_compute. discriminate.
Qed.


(** ** The heartbeat *)

Lemma ping_run (t : Transmit) :
  ping t =
  (Normal tt, t,
   Storage call_getAllSubscribers
     :: Storage call_getAllSubscribers
     :: (StreamChannelRepository.getAllSubscribers (storage t) ≫= ping_step)).
Proof.
  unfold ping, mbind at 1 2, M_bind, storage_getAllSubscribers.
  rewrite (for_of_run _ _ ping_step); [reflexivity|].
  by intros [stream chs] t'.
Qed.

Lemma writes_ping_steps (subscribers : list (Stream * gset string)) :
  writes (subscribers ≫= ping_step) =
  (fun subscriber =>
     (subscriber.1, message_of "$$transmit/ping" (BObject [])))
    <$> subscribers.
Proof.
  induction subscribers as [|s ss IH]; [reflexivity|].
  cbn [mbind list_bind fmap list_fmap]. unfold writes in *.
  rewrite omap_app, IH. reflexivity.
Qed.

Lemma writes_ping (t : Transmit) :
  writes (effects ping t) =
  (fun subscriber =>
     (subscriber.1, message_of "$$transmit/ping" (BObject [])))
    <$> StreamChannelRepository.getAllSubscribers (storage t).
Proof.
  unfold effects. rewrite ping_run. cbn [snd]. unfold writes.
  cbn [omap list_omap]. apply writes_ping_steps.
Qed.

Lemma interval_tick_run (t : Transmit) :
  interval_tick t =
  match interval t with
  | Some _ => ping t
  | None => (Normal tt, t, [])
  end.
Proof.
  unfold interval_tick, mbind, M_bind, gets.
  destruct (interval t); [|reflexivity].
  by rewrite ping_run.
Qed.

(** *** The fields that no operation changes *)

Lemma final_then_ret {A : Type} (m : M A) (t : Transmit) :
  final (m ;; mret tt) t = final m t.
Proof.
  unfold final, mbind, M_bind.
  by destruct (m t) as [[[a|e] t'] log].
Qed.

Lemma on_bus_message_final (message : TransmitMessage) (t : Transmit) :
  exists r : StreamChannelRepository.t,
    final (on_bus_message message) t = set_storage r t.
Proof.
  destruct message as [channel payload|channel uid|channel uid];
    unfold final; cbn [on_bus_message].
  - rewrite broadcastLocally_run. exists (storage t).
    by rewrite set_storage_same.
  - unfold mbind, M_bind, storage_addChannelToStream.
    destruct (StreamChannelRepository.addChannelToStream _ _ _) as [ok r].
    by exists r.
  - unfold mbind, M_bind, storage_removeChannelFromStream.
    destruct (StreamChannelRepository.removeChannelFromStream _ _ _)
      as [ok r].
    by exists r.
Qed.

Lemma subscribe_final (uid channel : string) (ctx : HttpContext)
    (t : Transmit) :
  exists r : StreamChannelRepository.t,
    final (subscribeToChannel uid channel ctx) t = set_storage r t.
Proof.
  unfold final.
  destruct (SecureChannelStore.match_ channel (secureChannelStore t))
    as [d|] eqn:Hmatch.
  - destruct (secureChannelCallbacks t !! SecureChannelStore.url d)
      as [callback|] eqn:Hcallback.
    + rewrite (subscribe_secured_run _ _ _ _ _ _ Hmatch Hcallback).
      destruct (callback ctx (SecureChannelStore.params d)) as [[]|].
      * rewrite subscribe_proceed_run. by eexists.
      * exists (storage t). by rewrite set_storage_same.
      * exists (storage t). by rewrite set_storage_same.
    + rewrite (subscribe_orphan_run _ _ _ _ _ Hmatch Hcallback).
      exists (storage t). by rewrite set_storage_same.
  - rewrite (subscribe_public_run _ _ _ _ Hmatch), subscribe_proceed_run.
    by eexists.
Qed.

Lemma createStream_final (ctx : HttpContext) (t : Transmit) :
  exists r : StreamChannelRepository.t,
    final (createStream ctx) t = set_storage r t.
Proof.
  unfold final, createStream.
  destruct (input_falsy (request_input ctx "uid")).
  - exists (storage t). by rewrite set_storage_same.
  - by eexists.
Qed.

Lemma bus_deliver_final (channel : string) (message : TransmitMessage)
    (t : Transmit) :
  exists r : StreamChannelRepository.t,
    final (bus_deliver channel message) t = set_storage r t.
Proof.
  unfold final, bus_deliver, mbind at 1, M_bind at 1, gets at 1.
  destruct (bus t) as [b|].
  - destruct (bool_decide (channel ∈ bus_subscribed b)).
    + destruct (on_bus_message_final message t) as [r Hr].
      exists r. rewrite <- Hr. unfold final.
      by destruct (on_bus_message message t) as [[c t'] log].
    + exists (storage t). by rewrite set_storage_same.
  - exists (storage t). by rewrite set_storage_same.
Qed.

(** The timer, the bus and the configuration are set by the constructor
    and stay as they are. *)
Lemma perform_keeps (op : Operation) (t : Transmit) :
  interval (final (perform op) t) = interval t
  /\ bus (final (perform op) t) = bus t
  /\ config (final (perform op) t) = config t.
Proof.
  destruct op as [ctx|stream ctx|channel callback|uid channel ctx
                  |uid channel ctx|channel payload|channel payload sender
                  |channel message|]; cbn [perform].
  - rewrite final_then_ret.
    by destruct (createStream_final ctx t) as [r ->].
  - done.
  - done.
  - rewrite final_then_ret.
    by destruct (subscribe_final uid channel ctx t) as [r ->].
  - rewrite final_then_ret. unfold final. by rewrite unsubscribe_run.
  - unfold final. by rewrite broadcast_run.
  - unfold final. by rewrite broadcastExcept_run.
  - by destruct (bus_deliver_final channel message t) as [r ->].
  - unfold final. rewrite interval_tick_run.
    destruct (interval t) eqn:Htimer; [rewrite ping_run|]; by rewrite ?Htimer.
Qed.

Lemma after_keeps (history : list Operation) (t : Transmit) :
  interval (after history t) = interval t
  /\ bus (after history t) = bus t
  /\ config (after history t) = config t.
Proof.
  revert t. induction history as [|op history IH]; intros t; [done|].
  cbn [after foldl]. fold (after history (final (perform op) t)).
  destruct (IH (final (perform op) t)) as (-> & -> & ->).
  apply perform_keeps.
Qed.

(** The constructor's subscription: on an instance built with a
    transport, a message that arrives on the synchronization channel goes
    to the handler. *)
Lemma bus_deliver_sync_channel (milliseconds_parse : string -> Z)
    (config : TransmitConfig) (transport : Transport)
    (history : list Operation) (message : TransmitMessage) :
  let t :=
    after history (new_Transmit milliseconds_parse config (Some transport))
  in
  bus_deliver (transport_channel config) message t = on_bus_message message t.
Proof.
  intros t.
  destruct (after_keeps history
              (new_Transmit milliseconds_parse config (Some transport)))
    as (_ & Hbus & _).
  fold t in Hbus. cbn [new_Transmit bus] in Hbus.
  unfold bus_deliver, mbind, M_bind, gets. rewrite Hbus.
  cbn [bus_subscribed]. rewrite bool_decide_eq_true_2 by set_solver.
  by destruct (on_bus_message message t) as [[c t'] log].
Qed.

(** C8: take the instance the constructor builds, after any history of
    operations.  Every firing of its timer writes to every stream of
    [getAllSubscribers], subscribed to a channel or not, one message of
    channel ["$$transmit/ping"] with the empty object as payload, and to
    no other stream; the timer exists when the configured ping interval
    is truthy.  When no ping interval is configured there is no timer,
    and a firing would do nothing. *)
Theorem heartbeat_pings_every_registered_stream
    (milliseconds_parse : string -> Z) (config : TransmitConfig)
    (transport : option Transport) (history : list Operation) :
  let t :=
    after history (new_Transmit milliseconds_parse config transport) in
  (forall period : Z,
      interval t = Some period ->
      writes (effects interval_tick t) =
      (fun subscriber =>
         (subscriber.1, message_of "$$transmit/ping" (BObject [])))
        <$> StreamChannelRepository.getAllSubscribers (storage t))
  /\ (forall d : Duration,
        pingInterval config = Some d ->
        duration_truthy d = true ->
        is_Some (interval t))
  /\ (pingInterval config = None ->
      interval t = None /\ interval_tick t = (Normal tt, t, [])).
Proof.
  intros t.
  destruct (after_keeps history
              (new_Transmit milliseconds_parse config transport))
    as (Htimer & _ & _).
  fold t in Htimer. cbn [new_Transmit interval] in Htimer.
  split; [|split].
  - intros period Hperiod. unfold effects.
    rewrite interval_tick_run, Hperiod. apply writes_ping.
  - intros d Hd Htruthy. by rewrite Htimer, Hd, Htruthy.
  - intros Hnone. rewrite Hnone in Htimer. split; [done|].
    by rewrite interval_tick_run, Htimer.
Qed.

Lemma heartbeat_pings_every_registered_stream_witness :
  interval (after lobby_history fresh_instance) = Some 30000%Z
  /\ writes (effects interval_tick (after lobby_history fresh_instance))
     = [(stream_c3, message_of "$$transmit/ping" (BObject []));
        (stream_a1, message_of "$$transmit/ping" (BObject []))]
  /\ interval_tick
       (after lobby_history
          (new_Transmit (fun _ => 0%Z)
             {| pingInterval := None; transport_channel := "sync" |} None))
     = (Normal tt,
        after lobby_history
          (new_Transmit (fun _ => 0%Z)
             {| pingInterval := None; transport_channel := "sync" |} None),
        []).
Proof.
  split; [reflexivity|]. split.
  - exact (proj1 (heartbeat_pings_every_registered_stream
                    (fun _ => 0%Z) example_config
                    (Some (transport_driver "redis")) lobby_history)
             30000%Z eq_refl).
  - exact (proj2 (proj2 (proj2 (heartbeat_pings_every_registered_stream
                                  (fun _ => 0%Z)
                                  {| pingInterval := None;
                                     transport_channel := "sync" |}
                                  None lobby_history)) eq_refl)).
Defined.


(** ** The registry and the store, on the scenarios of the design *)

Lemma addChannelToStream_known (uid channel : string) (stream : Stream)
    (chs : gset string) (r : StreamChannelRepository.t) :
  StreamChannelRepository.clients r !! uid = Some (stream, chs) ->
  let r' := (StreamChannelRepository.addChannelToStream uid channel r).2 in
  (StreamChannelRepository.addChannelToStream uid channel r).1 = true
  /\ stream ∈ StreamChannelRepository.findByChannel channel r'
  /\ StreamChannelRepository.getChannelByClient uid r'
     = Some (chs ∪ {[channel]}).
Proof.
  intros Hclient r'. subst r'.
  unfold StreamChannelRepository.addChannelToStream. rewrite Hclient.
  cbn [fst snd]. split; [done|]. split.
  - unfold StreamChannelRepository.findByChannel. cbn.
    rewrite lookup_insert_eq. cbn. set_solver.
  - unfold StreamChannelRepository.getChannelByClient. cbn.
    by rewrite lookup_insert_eq.
Qed.

Lemma addChannelToStream_idempotent (uid channel : string)
    (r : StreamChannelRepository.t) :
  let r' := (StreamChannelRepository.addChannelToStream uid channel r).2 in
  (StreamChannelRepository.addChannelToStream uid channel r').2 = r'.
Proof.
  cbv zeta. unfold StreamChannelRepository.addChannelToStream at 2.
  destruct (StreamChannelRepository.clients r !! uid) as [[stream chs]|]
    eqn:Hclient; cbn [snd].
  - unfold StreamChannelRepository.addChannelToStream. cbn.
    rewrite !lookup_insert_eq. cbn. rewrite !insert_insert_eq.
    rewrite Hclient. cbn [snd].
    rewrite <- !(assoc_L (∪)), !(idemp_L (∪)). reflexivity.
  - by rewrite (addChannelToStream_unknown _ _ _ Hclient).
Qed.

Example match_binds_parameters :
  SecureChannelStore.match_ "chat/42"
    (SecureChannelStore.add "chat/:room" SecureChannelStore.empty)
  = Some {| SecureChannelStore.url := "chat/:room";
            SecureChannelStore.params := [("room", "42")] |}.
Proof. reflexivity. Qed.

Example match_public_channel :
  SecureChannelStore.match_ "room/1" (secureChannelStore chat_instance)
  = None.
Proof. reflexivity. Qed.

Example room_subscriptions :
  completion (getSubscriptionsForClient "a1") room_instance
    = Normal ["room/1"]
  /\ completion getClients room_instance = Normal ["a1"; "b2"].
Proof. split; reflexivity. Qed.

Example room_broadcast :
  writes (effects (broadcast "room/1"
                     (Some (BObject [("msg", BString "hi")]))) room_instance)
  = [(stream_a1, message_of "room/1" (BObject [("msg", BString "hi")]));
     (stream_b2, message_of "room/1" (BObject [("msg", BString "hi")]))].
Proof. reflexivity. Qed.

Example chat_refused :
  completion (subscribeToChannel "a1" "chat/42" ctx_a1) chat_instance
    = Normal false
  /\ StreamChannelRepository.findByChannel "chat/42"
       (storage (final (subscribeToChannel "a1" "chat/42" ctx_a1)
                   chat_instance))
     = [].
Proof. split; reflexivity. Qed.

Example close_unregisters :
  completion getClients (final (on_close stream_a1 ctx_a1) room_instance)
    = Normal ["b2"]
  /\ StreamChannelRepository.findByChannel "room/1"
       (storage (final (on_close stream_a1 ctx_a1) room_instance))
     = [stream_b2].
Proof. split; reflexivity. Qed.

(** * Further properties of the orchestrator *)

(** ** Subscribing, case by case *)

Lemma subscribe_cases (uid channel : string) (ctx : HttpContext)
    (t : Transmit) :
  let proceed (before : list Effect) :=
    (Normal (StreamChannelRepository.addChannelToStream uid channel
               (storage t)).1,
     set_storage (StreamChannelRepository.addChannelToStream uid channel
                    (storage t)).2 t,
     (before
        ++ Emit (hook_subscribe uid channel ctx)
        :: match bus t with
           | Some _ =>
               [BusPublish (transport_channel (config t))
                  (Subscribe channel uid)]
           | None => []
           end
        ++ [Storage (call_addChannelToStream uid channel)])%list) in
  subscribeToChannel uid channel ctx t =
  match SecureChannelStore.match_ channel (secureChannelStore t) with
  | None => proceed []
  | Some d =>
      match secureChannelCallbacks t !! SecureChannelStore.url d with
      | None => (Normal false, t, [])
      | Some callback =>
          match callback ctx (SecureChannelStore.params d) with
          | Returns true =>
              proceed [CallbackCall (SecureChannelStore.url d) ctx
                         (SecureChannelStore.params d)]
          | Returns false =>
              (Normal false, t,
               [CallbackCall (SecureChannelStore.url d) ctx
                  (SecureChannelStore.params d);
                ResponseForbidden ctx])
          | Throws =>
              (Normal false, t,
               [CallbackCall (SecureChannelStore.url d) ctx
                  (SecureChannelStore.params d);
                ResponseInternalServerError ctx])
          end
      end
  end.
Proof.
  cbv zeta.
  destruct (SecureChannelStore.match_ channel (secureChannelStore t))
    as [d|] eqn:Hmatch.
  - destruct (secureChannelCallbacks t !! SecureChannelStore.url d)
      as [callback|] eqn:Hcallback.
    + rewrite (subscribe_secured_run _ _ _ _ _ _ Hmatch Hcallback).
      destruct (callback ctx (SecureChannelStore.params d)) as [[]|];
        [|done|done].
      by rewrite subscribe_proceed_run.
    + by rewrite (subscribe_orphan_run _ _ _ _ _ Hmatch Hcallback).
  - by rewrite (subscribe_public_run _ _ _ _ Hmatch), subscribe_proceed_run.
Qed.

(** X1: [subscribe] never throws and never writes to a stream; it calls
    at most one authorization callback, none on a channel that matches no
    secured pattern, and on a matched pattern with a stored callback
    exactly that callback, once, with the context and the parameters of
    the match.  It leaves the authorization rules as they were. *)
Theorem subscribe_calls_one_callback
    (t : Transmit) (uid channel : string) (ctx : HttpContext) :
  (exists ok : bool,
      completion (subscribeToChannel uid channel ctx) t = Normal ok)
  /\ writes (effects (subscribeToChannel uid channel ctx) t) = []
  /\ callback_calls (effects (subscribeToChannel uid channel ctx) t) =
     match SecureChannelStore.match_ channel (secureChannelStore t) with
     | None => []
     | Some d =>
         match secureChannelCallbacks t !! SecureChannelStore.url d with
         | None => []
         | Some _ =>
             [(SecureChannelStore.url d, ctx, SecureChannelStore.params d)]
         end
     end
  /\ secureChannelStore (final (subscribeToChannel uid channel ctx) t)
     = secureChannelStore t
  /\ secureChannelCallbacks (final (subscribeToChannel uid channel ctx) t)
     = secureChannelCallbacks t.
Proof.
  unfold completion, effects, final. rewrite subscribe_cases. cbv zeta.
  destruct (SecureChannelStore.match_ channel (secureChannelStore t))
    as [d|].
  - destruct (secureChannelCallbacks t !! SecureChannelStore.url d)
      as [callback|].
    + destruct (callback ctx (SecureChannelStore.params d)) as [[]|];
        cbn; destruct (bus t); cbn; eauto 10.
    + cbn. eauto 10.
  - cbn. destruct (bus t); cbn; eauto 10.
Qed.

(** X2: when authorization passes (the channel matches no secured
    pattern, or the stored callback of the matched pattern answers true),
    [subscribe] returns what [addChannelToStream(uid, channel)] returns
    and the registry is the one that call leaves. *)
Theorem subscribe_authorized_returns_registry_answer
    (t : Transmit) (uid channel : string) (ctx : HttpContext) :
  SecureChannelStore.match_ channel (secureChannelStore t) = None
  \/ (exists (d : SecureChannelStore.definitions) (callback : Callback),
        SecureChannelStore.match_ channel (secureChannelStore t) = Some d
        /\ secureChannelCallbacks t !! SecureChannelStore.url d
           = Some callback
        /\ callback ctx (SecureChannelStore.params d) = Returns true) ->
  completion (subscribeToChannel uid channel ctx) t =
    Normal (StreamChannelRepository.addChannelToStream uid channel
              (storage t)).1
  /\ storage (final (subscribeToChannel uid channel ctx) t) =
     (StreamChannelRepository.addChannelToStream uid channel (storage t)).2.
Proof.
  intros Hpass. unfold completion, final. rewrite subscribe_cases. cbv zeta.
  destruct Hpass as [->|(d & callback & -> & Hcallback & Hresult)];
    [done|].
  cbn beta iota. unfold Callback in *. by rewrite Hcallback, Hresult.
Qed.

Lemma subscribe_authorized_returns_registry_answer_witness :
  completion (subscribeToChannel "a1" "chat/7" ctx_a1) chat_instance
    = Normal true
  /\ StreamChannelRepository.findByChannel "chat/7"
       (storage (final (subscribeToChannel "a1" "chat/7" ctx_a1)
                   chat_instance))
     = [stream_a1].
Proof.
  destruct (subscribe_authorized_returns_registry_answer
              chat_instance "a1" "chat/7" ctx_a1) as [Hc Hs].
  - right.
    exists {| SecureChannelStore.url := "chat/:id";
              SecureChannelStore.params := [("id", "7")] |}, chat_callback.
    repeat split.
  - split; [exact Hc|]. rewrite Hs. reflexivity.
Defined.

(** ** What does not depend on the authorization rules *)

Lemma on_bus_message_run (message : TransmitMessage) (t : Transmit) :
  on_bus_message message t =
  match message with
  | Broadcast channel payload =>
      (Normal tt, t,
       Storage (call_findByChannel channel)
         :: ((fun s => WriteMessage s (message_of channel payload))
               <$> StreamChannelRepository.findByChannel channel (storage t)))
  | Subscribe channel uid =>
      (Normal tt,
       set_storage
         (StreamChannelRepository.addChannelToStream uid channel
            (storage t)).2 t,
       [Storage (call_addChannelToStream uid channel)])
  | Unsubscribe channel uid =>
      (Normal tt,
       set_storage
         (StreamChannelRepository.removeChannelFromStream uid channel
            (storage t)).2 t,
       [Storage (call_removeChannelFromStream uid channel)])
  end.
Proof.
  destruct message as [channel payload|channel uid|channel uid];
    cbn [on_bus_message].
  - by rewrite broadcastLocally_run, fanout_no_sender.
  - unfold mbind, M_bind, storage_addChannelToStream.
    by destruct (StreamChannelRepository.addChannelToStream uid channel
                   (storage t)).
  - unfold mbind, M_bind, storage_removeChannelFromStream.
    by destruct (StreamChannelRepository.removeChannelFromStream uid channel
                   (storage t)).
Qed.

(** X3: only [subscribe] looks at the authorization rules.  On two
    instances that differ in nothing but the secured patterns and their
    callbacks, [unsubscribe], [broadcast], [broadcastExcept] and the
    handler of the bus return the same, log the same calls and leave the
    same registry; in particular [unsubscribe] from a secured channel
    calls no callback and marks no response. *)
Theorem rules_gate_subscribe_only
    (t : Transmit) (store : SecureChannelStore.t)
    (callbacks : gmap string Callback) :
  let t' := with_rules store callbacks t in
  (forall (uid channel : string) (ctx : HttpContext),
      completion (unsubscribeFromChannel uid channel ctx) t'
        = completion (unsubscribeFromChannel uid channel ctx) t
      /\ effects (unsubscribeFromChannel uid channel ctx) t'
         = effects (unsubscribeFromChannel uid channel ctx) t
      /\ storage (final (unsubscribeFromChannel uid channel ctx) t')
         = storage (final (unsubscribeFromChannel uid channel ctx) t)
      /\ callback_calls (effects (unsubscribeFromChannel uid channel ctx) t)
         = []
      /\ response_marks (effects (unsubscribeFromChannel uid channel ctx) t)
         = [])
  /\ (forall (channel : string) (payload : option Broadcastable),
        effects (broadcast channel payload) t'
          = effects (broadcast channel payload) t
        /\ final (broadcast channel payload) t' = t')
  /\ (forall (channel : string) (payload : Broadcastable)
        (excluded : SenderUid),
        effects (broadcastExcept channel payload excluded) t'
          = effects (broadcastExcept channel payload excluded) t
        /\ final (broadcastExcept channel payload excluded) t' = t')
  /\ (forall message : TransmitMessage,
        effects (on_bus_message message) t'
          = effects (on_bus_message message) t
        /\ storage (final (on_bus_message message) t')
           = storage (final (on_bus_message message) t)).
Proof.
  intros t'. subst t'. split; [|split; [|split]].
  - intros uid channel ctx. unfold completion, effects, final.
    rewrite !unsubscribe_run. cbn.
    repeat split; by destruct (bus t).
  - intros channel payload. unfold effects, final.
    by rewrite !broadcast_run.
  - intros channel payload excluded. unfold effects, final.
    by rewrite !broadcastExcept_run.
  - intros message. unfold effects, final. rewrite !on_bus_message_run.
    by destruct message.
Qed.

(** ** Registering callbacks *)

Lemma authorizeChannel_twice (t : Transmit) (pattern : string)
    (first second : Callback) :
  secureChannelCallbacks
    (final (authorizeChannel pattern first ;;
            authorizeChannel pattern second) t)
  = <[pattern := second]> (secureChannelCallbacks t).
Proof. cbn. apply insert_insert_eq. Qed.

(** X4: [authorizeChannel] logs nothing and leaves the registry, the bus
    and the timer alone.  Registering a pattern a second time replaces its
    callback and keeps the callbacks of the other patterns: a [subscribe]
    whose match gives that pattern then calls the second callback only,
    and is refused when it answers false, whatever the first one would
    have said. *)
Theorem authorizeChannel_last_callback_wins
    (t : Transmit) (pattern : string) (first second : Callback) :
  let t' := final (authorizeChannel pattern first ;;
                   authorizeChannel pattern second) t in
  effects (authorizeChannel pattern first ;;
           authorizeChannel pattern second) t = []
  /\ storage t' = storage t /\ bus t' = bus t /\ interval t' = interval t
  /\ secureChannelCallbacks t' !! pattern = Some second
  /\ (forall other : string,
        other <> pattern ->
        secureChannelCallbacks t' !! other
        = secureChannelCallbacks t !! other)
  /\ (forall (uid channel : string) (ctx : HttpContext)
        (d : SecureChannelStore.definitions),
        SecureChannelStore.match_ channel (secureChannelStore t') = Some d ->
        SecureChannelStore.url d = pattern ->
        callback_calls (effects (subscribeToChannel uid channel ctx) t')
          = [(pattern, ctx, SecureChannelStore.params d)]
        /\ (second ctx (SecureChannelStore.params d) = Returns false ->
            subscribeToChannel uid channel ctx t' =
            (Normal false, t',
             [CallbackCall pattern ctx (SecureChannelStore.params d);
              ResponseForbidden ctx]))).
Proof.
  intros t'.
  assert (secureChannelCallbacks t' = <[pattern := second]>
                                        (secureChannelCallbacks t)) as Hcbs
    by apply authorizeChannel_twice.
  split; [done|]. split; [done|]. split; [done|]. split; [done|].
  split; [by rewrite Hcbs, lookup_insert_eq|].
  split; [by intros other Hne; rewrite Hcbs, lookup_insert_ne|].
  intros uid channel ctx d Hmatch Hurl.
  assert (secureChannelCallbacks t' !! SecureChannelStore.url d
          = Some second) as Hcallback
    by (by rewrite Hurl, Hcbs, lookup_insert_eq).
  unfold effects. rewrite subscribe_cases. cbv zeta.
  rewrite Hmatch. cbn beta iota. unfold Callback in *.
  rewrite Hcallback, Hurl.
  destruct (second ctx (SecureChannelStore.params d)) as [[]|] eqn:Hsecond;
    (split; [cbn; by destruct (bus t')|done]).
Qed.

Lemma authorizeChannel_last_callback_wins_witness :
  let t' := final (authorizeChannel "chat/:id" (fun _ _ => Returns true) ;;
                   authorizeChannel "chat/:id" (fun _ _ => Returns false))
              room_instance in
  subscribeToChannel "a1" "chat/7" ctx_a1 t' =
  (Normal false, t',
   [CallbackCall "chat/:id" ctx_a1 [("id", "7")]; ResponseForbidden ctx_a1]).
Proof.
  destruct (authorizeChannel_last_callback_wins room_instance "chat/:id"
              (fun _ _ => Returns true) (fun _ _ => Returns false))
    as (_ & _ & _ & _ & _ & _ & Hsubscribe).
  exact (proj2 (Hsubscribe "a1" "chat/7" ctx_a1
                  {| SecureChannelStore.url := "chat/:id";
                     SecureChannelStore.params := [("id", "7")] |}
                  eq_refl eq_refl) eq_refl).
Defined.

(** ** The shape of a broadcast *)

Lemma payload_or_empty_truthy (payload : option Broadcastable) :
  truthy (payload_or_empty payload) = true.
Proof.
  destruct payload as [p|]; [|reflexivity].
  cbn. by destruct (truthy p) eqn:Hp.
Qed.

(** X5: [broadcast] never throws and leaves the instance as it was.  Its
    log is, in this order: the published Broadcast message when there is a
    bus, the lookup of the channel's streams, one write per stream, and
    then one broadcast event, the only event; so the event comes after
    every write, also when the channel has no subscriber.  The payload
    written, published and announced is the same and is never falsy. *)
Theorem broadcast_publishes_writes_then_emits
    (t : Transmit) (channel : string) (payload : option Broadcastable) :
  let sent := payload_or_empty payload in
  truthy sent = true
  /\ broadcast channel payload t =
     (Normal tt, t,
      (match bus t with
       | Some _ =>
           [BusPublish (transport_channel (config t))
              (Broadcast channel sent)]
       | None => []
       end
       ++ Storage (call_findByChannel channel)
       :: ((fun s => WriteMessage s (message_of channel sent))
             <$> StreamChannelRepository.findByChannel channel (storage t))
       ++ [Emit (hook_broadcast channel sent)])%list).
Proof.
  intros sent. subst sent. split.
  - apply payload_or_empty_truthy.
  - by rewrite broadcast_run, fanout_no_sender.
Qed.

Lemma is_sender_one_many (uid subscriber : string) :
  is_sender (Some (OneUid uid)) subscriber
  = is_sender (Some (ManyUids [uid])) subscriber.
Proof.
  cbn [is_sender].
  destruct (String.eqb_spec uid subscriber) as [->|Hne].
  - symmetry. apply bool_decide_eq_true_2. by apply list_elem_of_singleton.
  - symmetry. apply bool_decide_eq_false_2.
    rewrite list_elem_of_singleton. congruence.
Qed.

Lemma fanout_step_ext (channel : string) (payload : Broadcastable)
    (a b : option SenderUid) (subscribers : list Stream) :
  (forall uid : string, is_sender a uid = is_sender b uid) ->
  subscribers ≫= fanout_step channel payload a
  = subscribers ≫= fanout_step channel payload b.
Proof.
  intros Hsame. induction subscribers as [|s ss IH]; [reflexivity|].
  cbn [mbind list_bind]. rewrite IH. unfold fanout_step.
  by rewrite Hsame.
Qed.

(** X6: [broadcastExcept] emits no event, in particular no broadcast
    event, and leaves the instance as it was.  Excluding one uid is the
    same as excluding the array of that uid alone; only membership
    counts in an array of uids, so two arrays with the same members
    behave alike; with the empty array every stream of the channel is
    written to. *)
Theorem broadcastExcept_exclusion_by_membership
    (t : Transmit) (channel : string) (payload : Broadcastable) :
  (forall excluded : SenderUid,
      emitted (effects (broadcastExcept channel payload excluded) t) = []
      /\ final (broadcastExcept channel payload excluded) t = t
      /\ completion (broadcastExcept channel payload excluded) t = Normal tt)
  /\ (forall uid : string,
        broadcastExcept channel payload (OneUid uid) t
        = broadcastExcept channel payload (ManyUids [uid]) t)
  /\ (forall uids uids' : list string,
        (forall uid : string, uid ∈ uids <-> uid ∈ uids') ->
        broadcastExcept channel payload (ManyUids uids) t
        = broadcastExcept channel payload (ManyUids uids') t)
  /\ writes (effects (broadcastExcept channel payload (ManyUids [])) t)
     = (fun s => (s, message_of channel payload))
         <$> StreamChannelRepository.findByChannel channel (storage t).
Proof.
  split; [|split; [|split]].
  - intros excluded. unfold emitted, effects, final, completion.
    rewrite broadcastExcept_run. cbn [fst snd omap list_omap].
    split; [|done]. apply emitted_fanout.
  - intros uid. rewrite !broadcastExcept_run. do 2 f_equal.
    apply fanout_step_ext, is_sender_one_many.
  - intros uids uids' Hsame. rewrite !broadcastExcept_run. do 2 f_equal.
    apply fanout_step_ext. intros uid. cbn [is_sender].
    apply bool_decide_ext, Hsame.
  - unfold effects. rewrite broadcastExcept_run. cbn [snd].
    unfold writes. cbn [omap list_omap]. fold writes.
    rewrite (fanout_step_ext _ _ _ None); [apply writes_fanout_all|].
    intros uid. cbn [is_sender]. apply bool_decide_eq_false_2.
    apply not_elem_of_nil.
Qed.

Lemma broadcastExcept_exclusion_by_membership_witness :
  broadcastExcept "room/1" (BNumber 0) (ManyUids ["a1"; "zz"]) room_instance
  = broadcastExcept "room/1" (BNumber 0) (ManyUids ["zz"; "a1"; "a1"])
      room_instance.
Proof.
  apply (proj1 (proj2 (proj2 (broadcastExcept_exclusion_by_membership
                                room_instance "room/1" (BNumber 0))))).
  intros uid. rewrite !elem_of_cons, !elem_of_nil. tauto.
Defined.

(** X7: [broadcastExcept] writes to no stream that [broadcast] would not
    write to: for a truthy payload its writes are, in order, some of the
    writes of [broadcast] on the same channel with the same payload. *)
Theorem broadcastExcept_writes_within_broadcast
    (t : Transmit) (channel : string) (payload : Broadcastable)
    (excluded : SenderUid) :
  truthy payload = true ->
  writes (effects (broadcastExcept channel payload excluded) t)
    `sublist_of` writes (effects (broadcast channel (Some payload)) t).
Proof.
  intros Htruthy. rewrite writes_broadcast. cbn [payload_or_empty].
  rewrite Htruthy. cbn [negb]. unfold effects.
  rewrite broadcastExcept_run. cbn [snd]. unfold writes.
  cbn [omap list_omap]. fold writes.
  rewrite (writes_fanout _ _ _
             (fun s => is_sender (Some excluded) (getUid s) = false))
    by done.
  apply fmap_sublist, sublist_filter.
Qed.

Lemma broadcastExcept_writes_within_broadcast_witness :
  writes (effects (broadcastExcept "room/1" (BString "hi") (OneUid "a1"))
            room_instance)
    `sublist_of`
  writes (effects (broadcast "room/1" (Some (BString "hi"))) room_instance).
Proof.
  apply (broadcastExcept_writes_within_broadcast
           room_instance "room/1" (BString "hi") (OneUid "a1")).
  reflexivity.
Defined.

(** ** Logs of single operations *)

Lemma effects_then_ret {A : Type} (m : M A) (t : Transmit) :
  effects (m ;; mret tt) t = effects m t.
Proof.
  unfold effects, mbind, M_bind.
  destruct (m t) as [[[a|e] t'] log]; [|done].
  cbn. apply app_nil_r.
Qed.

Lemma published_writes (f : Stream -> Message) (subscribers : list Stream) :
  published ((fun s => WriteMessage s (f s)) <$> subscribers) = [].
Proof. by induction subscribers. Qed.

Lemma published_ping_steps (subscribers : list (Stream * gset string)) :
  published (subscribers ≫= ping_step) = [].
Proof. by induction subscribers. Qed.

Lemma emitted_ping_steps (subscribers : list (Stream * gset string)) :
  emitted (subscribers ≫= ping_step) = [].
Proof. by induction subscribers. Qed.

Lemma published_on_bus_message (message : TransmitMessage) (t : Transmit) :
  published (effects (on_bus_message message) t) = [].
Proof.
  unfold effects. rewrite on_bus_message_run.
  destruct message; cbn [snd]; [|done|done].
  unfold published. cbn [omap list_omap]. apply published_writes.
Qed.

Lemma bus_deliver_effects (channel : string) (message : TransmitMessage)
    (t : Transmit) :
  effects (bus_deliver channel message) t =
  match bus t with
  | Some b =>
      if bool_decide (channel ∈ bus_subscribed b)
      then effects (on_bus_message message) t
      else []
  | None => []
  end.
Proof.
  unfold effects, bus_deliver, mbind at 1, M_bind at 1, gets at 1.
  destruct (bus t) as [b|]; [|done].
  destruct (bool_decide (channel ∈ bus_subscribed b)); [|done].
  by destruct (on_bus_message message t) as [[c t'] log].
Qed.

(** Whatever an operation publishes, it publishes on the configured
    channel of an instance that has a bus. *)
Lemma published_perform (op : Operation) (t : Transmit) :
  Forall (fun cm : string * TransmitMessage =>
            cm.1 = transport_channel (config t) /\ is_Some (bus t))
    (published (effects (perform op) t)).
Proof.
  destruct op as [ctx|stream ctx|channel callback|uid channel ctx
                  |uid channel ctx|channel payload|channel payload sender
                  |channel message|]; cbn [perform].
  - rewrite effects_then_ret. unfold effects, createStream.
    by destruct (input_falsy (request_input ctx "uid")).
  - by cbn.
  - by cbn.
  - rewrite effects_then_ret. unfold effects. rewrite subscribe_cases.
    cbv zeta. repeat case_match; cbn; repeat constructor; eauto.
  - rewrite effects_then_ret. unfold effects. rewrite unsubscribe_run.
    destruct (bus t) eqn:Hbus; cbn; repeat constructor; eauto.
  - rewrite published_broadcast.
    destruct (bus t) eqn:Hbus; repeat constructor; eauto.
  - unfold effects. rewrite broadcastExcept_run. cbn [snd].
    unfold published. cbn [omap list_omap]. fold published.
    by rewrite published_fanout.
  - rewrite bus_deliver_effects. repeat case_match; [|done|done].
    by rewrite published_on_bus_message.
  - unfold effects. rewrite interval_tick_run.
    destruct (interval t); [|done]. rewrite ping_run. cbn [snd].
    unfold published. cbn [omap list_omap]. fold published.
    by rewrite published_ping_steps.
Qed.

Lemma published_trace (history : list Operation) (t : Transmit) :
  Forall (fun cm : string * TransmitMessage =>
            cm.1 = transport_channel (config t) /\ is_Some (bus t))
    (published (trace history t)).
Proof.
  revert t. induction history as [|op history IH]; intros t; [done|].
  cbn [trace]. unfold published. rewrite omap_app. fold published.
  apply Forall_app. split; [apply published_perform|].
  destruct (perform_keeps op t) as (_ & Hbus & Hconfig).
  specialize (IH (final (perform op) t)).
  by rewrite Hbus, Hconfig in IH.
Qed.

(** ** Instances and the bus *)

(** X8: an instance built without a transport never publishes: whatever
    the history of calls, closed connections, delivered messages and
    timer firings, its log contains no publication. *)
Theorem instance_without_transport_never_publishes
    (milliseconds_parse : string -> Z) (config : TransmitConfig)
    (history : list Operation) :
  published (trace history (new_Transmit milliseconds_parse config None))
  = [].
Proof.
  pose proof (published_trace history
                (new_Transmit milliseconds_parse config None)) as Hall.
  destruct (published _) as [|cm rest]; [done|].
  apply Forall_cons in Hall as [[_ [b Hb]] _]. discriminate.
Qed.

(** X9: an instance built with a transport listens on the configured
    synchronization channel, and after any history it still does, on the
    same bus; everything it ever publishes goes on that very channel. *)
Theorem instance_publishes_where_it_listens
    (milliseconds_parse : string -> Z) (config : TransmitConfig)
    (transport : Transport) (history : list Operation) :
  let t0 := new_Transmit milliseconds_parse config (Some transport) in
  bus (after history t0)
    = Some {| bus_transport := transport;
              bus_subscribed := [transport_channel config] |}
  /\ Forall (fun cm : string * TransmitMessage =>
              cm.1 = transport_channel config)
       (published (trace history t0)).
Proof.
  intros t0. split.
  - by destruct (after_keeps history t0) as (_ & -> & _).
  - eapply Forall_impl; [apply published_trace|].
    by intros cm [-> _].
Qed.

(** ** Who is written to *)

Lemma writes_of_writes (f : Stream -> Message) (subscribers : list Stream) :
  writes ((fun s => WriteMessage s (f s)) <$> subscribers)
  = (fun s => (s, f s)) <$> subscribers.
Proof.
  induction subscribers as [|s ss IH]; [reflexivity|].
  cbn. unfold writes in IH. by rewrite IH.
Qed.

Lemma writes_subscribe (uid channel : string) (ctx : HttpContext)
    (t : Transmit) :
  writes (effects (subscribeToChannel uid channel ctx) t) = [].
Proof.
  unfold effects. rewrite subscribe_cases. cbv zeta.
  repeat case_match; done.
Qed.

Lemma writes_broadcastExcept (channel : string) (payload : Broadcastable)
    (excluded : SenderUid) (t : Transmit) :
  writes (effects (broadcastExcept channel payload excluded) t)
  = (fun s => (s, message_of channel payload))
      <$> filter (fun s => is_sender (Some excluded) (getUid s) = false)
            (StreamChannelRepository.findByChannel channel (storage t)).
Proof.
  unfold effects. rewrite broadcastExcept_run. cbn [snd]. unfold writes.
  cbn [omap list_omap]. fold writes. by apply writes_fanout.
Qed.

(** X10: the orchestrator writes only to streams the registry has just
    returned.  A [broadcast], a [broadcastExcept] and a Broadcast message
    from the bus write only to streams of [findByChannel(channel)], and
    only messages of that channel; a firing of the timer writes only to
    streams of [getAllSubscribers], and only the ping message; every
    other operation ([createStream], the close of a response,
    [authorizeChannel], [subscribe], [unsubscribe], a Subscribe or
    Unsubscribe message from the bus) writes to no stream at all. *)
Theorem writes_only_to_registered_streams (op : Operation) (t : Transmit) :
  let on_channel (channel : string) :=
    Forall (fun w : Stream * Message =>
              w.1 ∈ StreamChannelRepository.findByChannel channel (storage t)
              /\ data_channel w.2 = channel)
      (writes (effects (perform op) t)) in
  match op with
  | op_broadcast channel _ => on_channel channel
  | op_broadcastExcept channel _ _ => on_channel channel
  | op_bus_deliver _ (Broadcast channel _) => on_channel channel
  | op_interval_tick =>
      Forall (fun w : Stream * Message =>
                w.1 ∈ (StreamChannelRepository.getAllSubscribers
                         (storage t)).*1
                /\ w.2 = message_of "$$transmit/ping" (BObject []))
        (writes (effects (perform op) t))
  | _ => writes (effects (perform op) t) = []
  end.
Proof.
  destruct op as [ctx|stream ctx|channel callback|uid channel ctx
                  |uid channel ctx|channel payload|channel payload sender
                  |channel message|]; cbn [perform]; cbv zeta.
  - rewrite effects_then_ret. unfold effects, createStream.
    by destruct (input_falsy (request_input ctx "uid")).
  - done.
  - done.
  - rewrite effects_then_ret. apply writes_subscribe.
  - rewrite effects_then_ret. unfold effects. rewrite unsubscribe_run.
    by destruct (bus t).
  - rewrite writes_broadcast. apply Forall_fmap, Forall_forall.
    by intros s Hs.
  - rewrite writes_broadcastExcept. apply Forall_fmap, Forall_forall.
    intros s Hs. apply list_elem_of_filter in Hs as [_ Hs]. done.
  - rewrite bus_deliver_effects. unfold effects.
    rewrite on_bus_message_run.
    destruct message as [ch payload|ch uid|ch uid];
      repeat case_match; try done.
    cbn [snd]. unfold writes. cbn [omap list_omap]. fold writes.
    rewrite writes_of_writes. apply Forall_fmap, Forall_forall.
    by intros s Hs.
  - unfold effects. rewrite interval_tick_run.
    destruct (interval t); [|by constructor].
    fold (effects ping t). rewrite writes_ping.
    apply Forall_fmap, Forall_forall. intros sub Hsub. split; [|done].
    cbn [fst]. by apply list_elem_of_fmap_2.
Qed.

(** ** The heartbeat and the list of clients *)

Lemma getClients_run (t : Transmit) :
  getClients t =
  (Normal ((fun subscriber : Stream * gset string => getUid subscriber.1)
             <$> StreamChannelRepository.getAllSubscribers (storage t)),
   t, [Storage call_getAllSubscribers]).
Proof.
  unfold getClients, mbind, M_bind, storage_getAllSubscribers. cbn.
  do 2 f_equal. f_equal. apply list_fmap_ext. by intros i [stream chs].
Qed.

(** X11: the heartbeat reaches exactly the clients [getClients] lists:
    the uids of the streams a ping is written to are, in order, the uids
    [getClients] returns.  Neither of them publishes or emits, and both
    leave the instance as it was. *)
Theorem heartbeat_reaches_the_listed_clients (t : Transmit) :
  completion getClients t
    = Normal ((fun w : Stream * Message => getUid w.1)
                <$> writes (effects ping t))
  /\ final getClients t = t /\ final ping t = t
  /\ published (effects ping t) = [] /\ emitted (effects ping t) = []
  /\ effects getClients t = [Storage call_getAllSubscribers].
Proof.
  unfold completion, final. rewrite writes_ping, getClients_run.
  unfold effects. rewrite ping_run, getClients_run. cbn [fst snd].
  rewrite <- list_fmap_compose.
  split; [done|]. split; [done|]. split; [done|].
  split; [apply published_ping_steps|]. split; [apply emitted_ping_steps|].
  done.
Qed.

(** ** Shutdown *)

(** X12: [shutdown] stops what the constructor started, whatever happened
    in between: after any history it clears the timer exactly when the
    configured ping interval is truthy (with the milliseconds given, or
    parsed from the duration string), then disconnects the bus exactly
    when a transport was given; with neither it does nothing. *)
Theorem shutdown_stops_what_the_constructor_started
    (milliseconds_parse : string -> Z) (config : TransmitConfig)
    (transport : option Transport) (history : list Operation) :
  shutdown (after history (new_Transmit milliseconds_parse config transport))
  = (match pingInterval config with
     | Some (Millis n) =>
         if (n =? 0)%Z then [] else [call_clearInterval n]
     | Some (Pretty s) =>
         if String.eqb s EmptyString then []
         else [call_clearInterval (milliseconds_parse s)]
     | None => []
     end
     ++ match transport with
        | Some driver =>
            [call_bus_disconnect
               {| bus_transport := driver;
                  bus_subscribed := [transport_channel config] |}]
        | None => []
        end)%list.
Proof.
  unfold shutdown.
  destruct (after_keeps history
              (new_Transmit milliseconds_parse config transport))
    as (-> & -> & _).
  cbn [new_Transmit interval bus].
  destruct (pingInterval config) as [[n|s]|]; cbn [duration_truthy];
    [destruct (n =? 0)%Z|destruct (String.eqb s EmptyString)|];
    by destruct transport.
Qed.

(** ** From one instance to its peers *)

Lemma unit_then_ret (m : M unit) (t : Transmit) : (m ;; mret tt) t = m t.
Proof.
  unfold mbind, M_bind.
  destruct (m t) as [[[[]|e] t'] log]; [|done].
  cbn. by rewrite app_nil_r.
Qed.

Lemma relay_nothing (log : list Effect) (peer : Transmit) :
  published log = [] -> relay log peer = (Normal tt, peer, []).
Proof. intros Hlog. unfold relay. by rewrite Hlog. Qed.

Lemma relay_one (log : list Effect) (channel : string)
    (message : TransmitMessage) (peer : Transmit) :
  published log = [(channel, message)] ->
  relay log peer = on_bus_message message peer.
Proof.
  intros Hlog. unfold relay. rewrite Hlog. cbn [fmap list_fmap snd for_of].
  apply unit_then_ret.
Qed.

Lemma published_broadcastExcept (channel : string) (payload : Broadcastable)
    (excluded : SenderUid) (t : Transmit) :
  published (effects (broadcastExcept channel payload excluded) t) = [].
Proof.
  unfold effects. rewrite broadcastExcept_run. cbn [snd].
  unfold published. cbn [omap list_omap]. apply published_fanout.
Qed.

(** X13: what a [broadcast] on an instance with a bus gives on a peer
    whose handler receives the published message: the peer writes to its
    own streams of the channel the payload the local streams received
    (the empty object when the payload given was falsy or omitted); it
    publishes nothing back, emits no event and is left as it was.  A
    [broadcastExcept] gives nothing at all on the peer. *)
Theorem broadcast_reaches_the_peers
    (t peer : Transmit) (channel : string) (b : Bus) :
  bus t = Some b ->
  (forall payload : option Broadcastable,
      let sent := payload_or_empty payload in
        writes (effects (broadcast channel payload) t)
          = (fun s => (s, message_of channel sent))
              <$> StreamChannelRepository.findByChannel channel (storage t)
        /\ relay (effects (broadcast channel payload) t) peer =
           (Normal tt, peer,
            Storage (call_findByChannel channel)
              :: ((fun s => WriteMessage s (message_of channel sent))
                    <$> StreamChannelRepository.findByChannel channel
                          (storage peer)))
        /\ published (effects (relay (effects (broadcast channel payload) t))
                        peer) = []
        /\ emitted (effects (relay (effects (broadcast channel payload) t))
                      peer) = [])
  /\ (forall (payload : Broadcastable) (excluded : SenderUid),
        relay (effects (broadcastExcept channel payload excluded) t) peer
        = (Normal tt, peer, [])).
Proof.
  intros Hbus. split.
  - intros payload sent. subst sent.
    assert (relay (effects (broadcast channel payload) t) peer
            = on_bus_message
                (Broadcast channel (payload_or_empty payload)) peer)
      as Hrelay.
    { apply (relay_one _ (transport_channel (config t))).
      by rewrite published_broadcast, Hbus. }
    split; [apply writes_broadcast|].
    split; [by rewrite Hrelay, on_bus_message_run|].
    unfold effects at 1 3. rewrite Hrelay, on_bus_message_run. cbn [snd].
    split.
    + unfold published. cbn [omap list_omap]. apply published_writes.
    + unfold emitted. cbn [omap list_omap].
      by induction (StreamChannelRepository.findByChannel channel
                      (storage peer)).
  - intros payload excluded. apply relay_nothing, published_broadcastExcept.
Qed.

Lemma broadcast_reaches_the_peers_witness :
  relay (effects (broadcast "room/1" (Some (BNumber 0))) fresh_instance)
    room_instance
  = (Normal tt, room_instance,
     [Storage (call_findByChannel "room/1");
      WriteMessage stream_a1 (message_of "room/1" (BObject []));
      WriteMessage stream_b2 (message_of "room/1" (BObject []))])
  /\ relay (effects (broadcastExcept "room/1" (BNumber 0) (OneUid "zz"))
             fresh_instance) room_instance
     = (Normal tt, room_instance, []).
Proof.
  destruct (broadcast_reaches_the_peers fresh_instance room_instance
              "room/1" _ eq_refl) as [Hbroadcast Hexcept].
  split; [|apply Hexcept].
  destruct (Hbroadcast (Some (BNumber 0))) as (_ & Hrelay & _).
  exact Hrelay.
Defined.

(** X14: what a [subscribe] on an instance with a bus gives on a peer.
    When authorization passed on the instance, the peer applies
    [addChannelToStream(uid, channel)] to its own registry and nothing
    else, with no look at its own rules and whatever the registry of the
    instance answered; when the instance refused (callback missing,
    answering false or raising) the peer hears nothing.  An [unsubscribe]
    always reaches the peer, as one [removeChannelFromStream(uid,
    channel)]. *)
Theorem subscription_reaches_the_peers
    (t peer : Transmit) (uid channel : string) (ctx : HttpContext) (b : Bus) :
  bus t = Some b ->
  let passes :=
    SecureChannelStore.match_ channel (secureChannelStore t) = None
    \/ (exists (d : SecureChannelStore.definitions) (callback : Callback),
          SecureChannelStore.match_ channel (secureChannelStore t) = Some d
          /\ secureChannelCallbacks t !! SecureChannelStore.url d
             = Some callback
          /\ callback ctx (SecureChannelStore.params d) = Returns true) in
  (passes ->
   relay (effects (subscribeToChannel uid channel ctx) t) peer =
   (Normal tt,
    set_storage
      (StreamChannelRepository.addChannelToStream uid channel
         (storage peer)).2 peer,
    [Storage (call_addChannelToStream uid channel)]))
  /\ (~ passes ->
      relay (effects (subscribeToChannel uid channel ctx) t) peer
      = (Normal tt, peer, []))
  /\ relay (effects (unsubscribeFromChannel uid channel ctx) t) peer =
     (Normal tt,
      set_storage
        (StreamChannelRepository.removeChannelFromStream uid channel
           (storage peer)).2 peer,
      [Storage (call_removeChannelFromStream uid channel)]).
Proof.
  intros Hbus passes. subst passes.
  assert (forall before : list Effect,
             published before = [] ->
             published
               (before
                  ++ Emit (hook_subscribe uid channel ctx)
                  :: match bus t with
                     | Some _ =>
                         [BusPublish (transport_channel (config t))
                            (Subscribe channel uid)]
                     | None => []
                     end
                  ++ [Storage (call_addChannelToStream uid channel)])%list
             = [(transport_channel (config t), Subscribe channel uid)])
    as Hproceed.
  { intros before Hbefore. unfold published in *.
    by rewrite omap_app, Hbefore, Hbus. }
  split; [|split].
  - intros Hpass.
    rewrite (relay_one _ (transport_channel (config t))
               (Subscribe channel uid)); [by rewrite on_bus_message_run|].
    unfold effects. rewrite subscribe_cases. cbv zeta.
    destruct Hpass as [->|(d & callback & -> & Hcallback & Hresult)].
    + by apply Hproceed.
    + cbn beta iota. unfold Callback in *. rewrite Hcallback, Hresult.
      by apply Hproceed.
  - intros Hrefused. apply relay_nothing.
    unfold effects. rewrite subscribe_cases. cbv zeta.
    destruct (SecureChannelStore.match_ channel (secureChannelStore t))
      as [d|] eqn:Hmatch; [|by destruct Hrefused; left].
    destruct (secureChannelCallbacks t !! SecureChannelStore.url d)
      as [callback|] eqn:Hcallback; [|done].
    destruct (callback ctx (SecureChannelStore.params d)) as [[]|]
      eqn:Hresult; [|done|done].
    destruct Hrefused. right. by exists d, callback.
  - rewrite (relay_one _ (transport_channel (config t))
               (Unsubscribe channel uid)); [by rewrite on_bus_message_run|].
    unfold effects. rewrite unsubscribe_run. cbn [snd].
    unfold published. cbn [omap list_omap]. by rewrite omap_app, Hbus.
Qed.

Lemma subscription_reaches_the_peers_witness :
  (relay (effects (subscribeToChannel "a1" "chat/7" ctx_a1) chat_instance)
     room_instance).2
  = [Storage (call_addChannelToStream "a1" "chat/7")]
  /\ relay (effects (subscribeToChannel "a1" "chat/42" ctx_a1) chat_instance)
       room_instance
     = (Normal tt, room_instance, []).
Proof.
  split.
  - rewrite (proj1 (subscription_reaches_the_peers chat_instance
                      room_instance "a1" "chat/7" ctx_a1 _ eq_refl));
      [reflexivity|].
    right.
    exists {| SecureChannelStore.url := "chat/:id";
              SecureChannelStore.params := [("id", "7")] |}, chat_callback.
    repeat split.
  - apply (proj1 (proj2 (subscription_reaches_the_peers chat_instance
                           room_instance "a1" "chat/42" ctx_a1 _ eq_refl))).
    intros [Hpublic|(d & callback & Hmatch & Hcallback & Hresult)].
    + discriminate Hpublic.
    + vm_compute in Hmatch. injection Hmatch as <-.
      vm_compute in Hcallback. injection Hcallback as <-.
      discriminate Hresult.
Defined.

(** ** The authorization rules over a history *)

Lemma perform_final (op : Operation) (t : Transmit) :
  (forall (channel : string) (callback : Callback),
      op <> op_authorizeChannel channel callback) ->
  exists r : StreamChannelRepository.t,
    final (perform op) t = set_storage r t.
Proof.
  intros Hop.
  destruct op as [ctx|stream ctx|channel callback|uid channel ctx
                  |uid channel ctx|channel payload|channel payload sender
                  |channel message|]; cbn [perform].
  - rewrite final_then_ret. apply createStream_final.
  - by eexists.
  - by destruct (Hop channel callback).
  - rewrite final_then_ret. apply subscribe_final.
  - rewrite final_then_ret. unfold final. rewrite unsubscribe_run.
    by eexists.
  - unfold final. rewrite broadcast_run. exists (storage t).
    by rewrite set_storage_same.
  - unfold final. rewrite broadcastExcept_run. exists (storage t).
    by rewrite set_storage_same.
  - apply bus_deliver_final.
  - unfold final. rewrite interval_tick_run. exists (storage t).
    rewrite set_storage_same.
    destruct (interval t); [by rewrite ping_run|done].
Qed.

(** X15: the authorization rules change through [authorizeChannel] and
    through nothing else: over a history without a call of
    [authorizeChannel], the secured patterns and the callbacks at the end
    are those of the start, whatever was subscribed, broadcast, closed or
    received from the bus in between. *)
Theorem rules_change_only_through_authorizeChannel
    (history : list Operation) (t : Transmit) :
  Forall (fun op => forall (channel : string) (callback : Callback),
              op <> op_authorizeChannel channel callback) history ->
  secureChannelStore (after history t) = secureChannelStore t
  /\ secureChannelCallbacks (after history t) = secureChannelCallbacks t.
Proof.
  revert t. induction history as [|op history IH]; intros t Hall; [done|].
  apply Forall_cons in Hall as [Hop Hall].
  cbn [after foldl]. fold (after history (final (perform op) t)).
  destruct (IH (final (perform op) t) Hall) as [-> ->].
  by destruct (perform_final op t Hop) as [r ->].
Qed.

Lemma rules_change_only_through_authorizeChannel_witness :
  secureChannelStore
    (after [op_subscribe "a1" "chat/7" ctx_a1;
            op_broadcast "chat/7" None;
            op_bus_deliver "transmit::broadcast" (Subscribe "chat/42" "b2");
            op_close stream_a1 ctx_a1] chat_instance)
    = secureChannelStore chat_instance
  /\ secureChannelCallbacks
       (after [op_subscribe "a1" "chat/7" ctx_a1;
               op_broadcast "chat/7" None;
               op_bus_deliver "transmit::broadcast" (Subscribe "chat/42" "b2");
               op_close stream_a1 ctx_a1] chat_instance)
     = secureChannelCallbacks chat_instance.
Proof.
  apply (rules_change_only_through_authorizeChannel
           [op_subscribe "a1" "chat/7" ctx_a1;
            op_broadcast "chat/7" None;
            op_bus_deliver "transmit::broadcast" (Subscribe "chat/42" "b2");
            op_close stream_a1 ctx_a1] chat_instance).
  repeat constructor; discriminate.
Defined.

Lemma match_url_registered (channel : string) (s : SecureChannelStore.t)
    (d : SecureChannelStore.definitions) :
  SecureChannelStore.match_ channel s = Some d ->
  SecureChannelStore.url d ∈ SecureChannelStore.patterns s.
Proof.
  unfold SecureChannelStore.match_.
  induction (SecureChannelStore.patterns s) as [|p ps IH];
    cbn [SecureChannelStore.first_match]; [done|].
  destruct (SecureChannelStore.match_pattern p channel) as [d'|] eqn:Hp.
  - intros [= <-]. unfold SecureChannelStore.match_pattern in Hp.
    destruct (SecureChannelStore.match_segments _ _); [|done].
    injection Hp as <-. cbn. apply list_elem_of_here.
  - intros Hrest. apply list_elem_of_further, IH, Hrest.
Qed.

Lemma rules_complete_perform (op : Operation) (t : Transmit) :
  rules_complete t -> rules_complete (final (perform op) t).
Proof.
  intros Hcomplete.
  destruct op as [ctx|stream ctx|pattern callback|uid channel ctx
                  |uid channel ctx|channel payload|channel payload sender
                  |channel message|].
  3:{ intros p. cbn. rewrite elem_of_app, list_elem_of_singleton.
      intros [Hp| ->].
      - destruct (decide (pattern = p)) as [->|Hne].
        + rewrite lookup_insert_eq. by eexists.
        + rewrite lookup_insert_ne by done. by apply Hcomplete.
      - rewrite lookup_insert_eq. by eexists. }
  all: edestruct perform_final as [r ->]; [discriminate|exact Hcomplete].
Qed.

Lemma rules_complete_after (history : list Operation) (t : Transmit) :
  rules_complete t -> rules_complete (after history t).
Proof.
  revert t. induction history as [|op history IH]; intros t Ht; [done|].
  cbn [after foldl]. apply IH, rules_complete_perform, Ht.
Qed.

(** X16: on an instance built by the constructor and driven by any
    history of operations, every secured pattern has kept a callback;
    with the store of the design, whose match names a registered pattern,
    a [subscribe] on a channel that matches a secured pattern therefore
    always calls a callback, and the refusal for a missing callback
    (transmit.ts 173-175) is never taken. *)
Theorem secured_patterns_keep_their_callback
    (milliseconds_parse : string -> Z) (config : TransmitConfig)
    (transport : option Transport) (history : list Operation) :
  let t :=
    after history (new_Transmit milliseconds_parse config transport) in
  rules_complete t
  /\ (forall (uid channel : string) (ctx : HttpContext)
        (d : SecureChannelStore.definitions),
        SecureChannelStore.match_ channel (secureChannelStore t) = Some d ->
        is_Some (secureChannelCallbacks t !! SecureChannelStore.url d)
        /\ callback_calls (effects (subscribeToChannel uid channel ctx) t)
           = [(SecureChannelStore.url d, ctx, SecureChannelStore.params d)]).
Proof.
  intros t.
  assert (rules_complete t) as Hcomplete.
  { apply rules_complete_after. intros p Hp. cbn in Hp.
    by apply elem_of_nil in Hp. }
  split; [done|].
  intros uid channel ctx d Hmatch.
  destruct (Hcomplete _ (match_url_registered _ _ _ Hmatch))
    as [callback Hcallback].
  split; [by eexists|].
  unfold effects. rewrite subscribe_cases. cbv zeta. rewrite Hmatch.
  cbn beta iota. unfold Callback in *. rewrite Hcallback.
  destruct (callback ctx (SecureChannelStore.params d)) as [[]|];
    cbn; by destruct (bus t).
Qed.

Lemma secured_patterns_keep_their_callback_witness :
  callback_calls
    (effects (subscribeToChannel "a1" "chat/42" ctx_a1)
       (after [op_createStream ctx_a1;
               op_authorizeChannel "chat/:id" chat_callback;
               op_broadcast "chat/42" None]
          (new_Transmit (fun _ => 0%Z) example_config None)))
  = [("chat/:id", ctx_a1, [("id", "42")])].
Proof.
  exact (proj2 (proj2 (secured_patterns_keep_their_callback
                         (fun _ => 0%Z) example_config None
                         [op_createStream ctx_a1;
                          op_authorizeChannel "chat/:id" chat_callback;
                          op_broadcast "chat/42" None])
                  "a1" "chat/42" ctx_a1
                  {| SecureChannelStore.url := "chat/:id";
                     SecureChannelStore.params := [("id", "42")] |}
                  eq_refl)).
Defined.

(** ** Opening and closing a connection *)

(** X17: a [createStream] that succeeds registers exactly one listener on
    the close of the response and emits one connect event; that listener,
    whenever it runs, emits the disconnect event with the uid of the
    connect event and then asks the registry to remove the very stream
    that was pushed and returned, and does nothing else.  A
    [createStream] that throws registers no listener. *)
Theorem close_listener_matches_createStream
    (t : Transmit) (ctx : HttpContext) :
  (request_input ctx "uid" = None
   \/ request_input ctx "uid" = Some EmptyString ->
   close_listeners (effects (createStream ctx) t) = [])
  /\ (forall uid : string,
        request_input ctx "uid" = Some uid ->
        uid <> EmptyString ->
        exists stream : Stream,
          completion (createStream ctx) t = Normal stream
          /\ getUid stream = uid
          /\ emitted (effects (createStream ctx) t) = [hook_connect uid ctx]
          /\ Storage (call_push stream) ∈ effects (createStream ctx) t
          /\ length (close_listeners (effects (createStream ctx) t)) = 1
          /\ forall (listener : M unit) (later : Transmit),
               listener ∈ close_listeners (effects (createStream ctx) t) ->
               listener later =
               (Normal tt,
                set_storage
                  (StreamChannelRepository.remove stream (storage later))
                  later,
                [Emit (hook_disconnect uid ctx);
                 Storage (call_remove stream)])).
Proof.
  split.
  - intros Hfalsy. unfold effects.
    rewrite createStream_falsy_run; [done|].
    by destruct Hfalsy as [-> | ->].
  - intros uid Hinput Hne.
    exists {| getUid := uid; stream_request := conn ctx |}.
    unfold completion, effects.
    rewrite (createStream_run _ _ _ Hinput Hne). cbn [fst snd].
    split; [done|]. split; [done|]. split; [done|].
    split; [set_solver|]. split; [done|].
    intros listener later Hlistener. cbn in Hlistener.
    apply list_elem_of_singleton in Hlistener as ->. reflexivity.
Qed.

Lemma close_listener_matches_createStream_witness :
  close_listeners (effects (createStream ctx_no_uid) room_instance) = []
  /\ exists stream : Stream,
       completion (createStream ctx_c3) room_instance = Normal stream
       /\ emitted (effects (createStream ctx_c3) room_instance)
          = [hook_connect "c3" ctx_c3]
       /\ length (close_listeners
                    (effects (createStream ctx_c3) room_instance)) = 1.
Proof.
  destruct (close_listener_matches_createStream room_instance ctx_no_uid)
    as [Hthrows _].
  split; [apply Hthrows; by left|].
  destruct (close_listener_matches_createStream room_instance ctx_c3)
    as [_ Hopens].
  destruct (Hopens "c3" eq_refl) as (stream & Hc & _ & He & _ & Hl & _);
    [discriminate|].
  exists stream. by repeat split.
Defined.

(** ** Repeating a subscription *)

Lemma subscribe_effects_set_storage (uid channel : string)
    (ctx : HttpContext) (r : StreamChannelRepository.t) (t : Transmit) :
  effects (subscribeToChannel uid channel ctx) (set_storage r t)
  = effects (subscribeToChannel uid channel ctx) t.
Proof.
  unfold effects. rewrite !subscribe_cases. cbv zeta.
  cbn [set_storage secureChannelStore secureChannelCallbacks bus config].
  by repeat case_match.
Qed.

(** X18: what [subscribe] and [unsubscribe] log does not depend on the
    registry: the same calls are made, in the same order, whether the uid
    is known or not and whether the channel is already subscribed or not.
    So nothing is remembered from one [subscribe] to the next: repeating
    a [subscribe] repeats its whole log, callback call, event and
    publication included. *)
Theorem subscribe_log_ignores_registry
    (t : Transmit) (uid channel : string) (ctx : HttpContext) :
  (forall r : StreamChannelRepository.t,
      effects (subscribeToChannel uid channel ctx) (set_storage r t)
        = effects (subscribeToChannel uid channel ctx) t
      /\ effects (unsubscribeFromChannel uid channel ctx) (set_storage r t)
         = effects (unsubscribeFromChannel uid channel ctx) t)
  /\ effects (subscribeToChannel uid channel ctx ;;
              subscribeToChannel uid channel ctx) t
     = (effects (subscribeToChannel uid channel ctx) t
          ++ effects (subscribeToChannel uid channel ctx) t)%list.
Proof.
  split.
  - intros r. split; [apply subscribe_effects_set_storage|].
    unfold effects. by rewrite !unsubscribe_run.
  - destruct (subscribe_final uid channel ctx t) as [r Hr].
    rewrite <- (subscribe_effects_set_storage uid channel ctx r t) at 2.
    rewrite <- Hr. unfold effects, final, mbind, M_bind.
    pose proof (subscribe_cases uid channel ctx t) as Hcases.
    cbv zeta in Hcases.
    destruct (subscribeToChannel uid channel ctx t) as [[[ok|e] t'] log].
    + cbn [fst snd].
      by destruct (subscribeToChannel uid channel ctx t') as [[c t''] log'].
    + exfalso. by repeat case_match.
Qed.

(** ** Removing a stream from the registry *)

Lemma remove_leaves_no_channel (s : Stream) (channel : string)
    (r : StreamChannelRepository.t) :
  s ∉ StreamChannelRepository.findByChannel channel
        (StreamChannelRepository.remove s r).
Proof.
  unfold StreamChannelRepository.findByChannel,
    StreamChannelRepository.remove.
  cbn [StreamChannelRepository.channels]. rewrite lookup_fmap.
  destruct (StreamChannelRepository.channels r !! channel) as [subs|];
    cbn; rewrite elem_of_elements.
  - rewrite elem_of_difference, elem_of_singleton. tauto.
  - apply not_elem_of_empty.
Qed.

Lemma remove_absent (s : Stream) (r : StreamChannelRepository.t) :
  StreamChannelRepository.clients r !! getUid s = None ->
  (forall (channel : string) (subs : gset Stream),
      StreamChannelRepository.channels r !! channel = Some subs ->
      s ∉ subs) ->
  StreamChannelRepository.remove s r = r.
Proof.
  intros Hclient Hchannels. destruct r as [cl chs].
  unfold StreamChannelRepository.remove. cbn in *. rewrite Hclient.
  f_equal. apply map_eq. intros channel. rewrite lookup_fmap.
  destruct (chs !! channel) as [subs|] eqn:Hsubs; [|done].
  cbn. f_equal. apply set_eq. intros x.
  rewrite elem_of_difference, elem_of_singleton.
  split; [tauto|]. intros Hx. split; [done|].
  intros ->. by apply (Hchannels channel subs).
Qed.
